(** * SecureBootFHE: the boot-attestation contract

    A shallow embedding of the Solidity contract [SecureBootFHE] and the
    properties of its per-device boot history.

    - unsigned integers ([uint32], [uint256]) are [N], with truncation and
      checked arithmetic written out;
    - [mapping(address => T)] is a [gmap] read with the type's default value;
    - [BootStage[]] is a [list], indexed with a bounds check as the EVM does;
    - a call is a computation over the contract storage that either reverts
      or returns a value, a new storage and the events it emitted. *)

From stdpp Require Import gmap list strings.
From Stdlib Require Import NArith Lia.

Local Open Scope N_scope.

(** ** Solidity values *)

Abbreviation address := N (only parsing).
Abbreviation bytes := (list Byte.byte) (only parsing).

Module Solidity.

(** [uint32(x)] for a [uint256] value [x]: the low 32 bits. *)
Definition uint32 (x : N) : N := x mod 2 ^ 32.

(** Big-endian value of a byte string. *)
Definition be_value (bs : bytes) : N :=
  fold_left (fun acc b => acc * 256 + Byte.to_N b) bs 0.

(** [abi.decode(data, (uint32))]: one 32-byte word is read; the call
    reverts when the data is shorter than a word or when the word does not
    fit the type. *)
Definition abi_decode_uint32 (data : bytes) : option N :=
  if (length data <? 32)%nat then None
  else
    let w := be_value (take 32 data) in
    if w <? 2 ^ 32 then Some w else None.

(** [abi.encode(x)] for an unsigned integer: one big-endian word. *)
Fixpoint be_bytes (n : nat) (x : N) : bytes :=
  match n with
  | O => []
  | S n' => be_bytes n' (x / 256) ++ [default Byte.x00 (Byte.of_N (x mod 256))]
  end.

Definition abi_encode_uint (x : N) : bytes := be_bytes 32 x.

(** Function selectors ([bytes4]).  The contract passes one around:
    [this.decryptBootStatus.selector]. *)
Inductive Selector := Selector_decryptBootStatus.

End Solidity.

(** ** The encrypted-value library

    The contract consumes [FHE] as a library.  Handles are modelled by what
    they encrypt: an [euint32] is either the null handle (what a storage slot
    holds before anything was written to it) or a handle to a 32-bit
    plaintext.  Every operation treats the null handle as an encryption of
    zero. *)

Module FHE.

Inductive euint32 :=
| Uninitialized
| Enc (v : N).

(** An [ebool] is modelled by the truth value it encrypts; [FHE.select]
    follows that truth value. *)
Definition ebool := bool.

(** An [if] on an encrypted boolean.  [verifyBootStage] writes
    [if (FHE.gt(...))]: the condition is a ciphertext handle, the contract
    holds no plaintext, and neither the language nor the library says how
    such a condition resolves.  Which branch runs is therefore left open: it
    is a parameter of the model, and everything proved of the contract holds
    for every way of resolving it. *)
Class Branching := {
  taken : ebool -> bool;
}.

#[global] Instance euint32_eq_dec : EqDecision euint32.
Proof. solve_decision. Defined.

#[global] Instance euint32_inhabited : Inhabited euint32 :=
  populate Uninitialized.

(** The plaintext behind a handle. *)
Definition plain (a : euint32) : N :=
  match a with
  | Uninitialized => 0
  | Enc v => v
  end.

Definition asEuint32 (x : N) : euint32 := Enc (Solidity.uint32 x).

Definition eq (a b : euint32) : ebool := plain a =? plain b.

Definition gt (a b : euint32) : ebool := plain b <? plain a.

Definition select (c : ebool) (a b : euint32) : euint32 :=
  if c then a else b.

Definition add (a b : euint32) : euint32 :=
  Enc (Solidity.uint32 (plain a + plain b)).

(** [FHE.toBytes32]: the handle itself. *)
Definition toBytes32 (a : euint32) : euint32 := a.

(** The decryption oracle.  [requestDecryption] and [checkSignatures] keep
    their own bookkeeping in the calling contract's storage and may revert;
    nothing else about them is fixed here.  The events the library emits on
    its own account are not part of the model. *)
Class DecryptionOracle := {
  storage : Type;
  empty_storage : storage;
  requestDecryption :
    list euint32 -> Solidity.Selector -> storage -> option (N * storage);
  checkSignatures : N -> bytes -> bytes -> storage -> option storage;
}.

End FHE.

Import FHE (euint32, ebool).

(** ** Contract data *)

Record FirmwareComponent := {
  encryptedChecksum : euint32;
  encryptedSize : euint32;
  encryptedVersion : euint32;
  isVerified : bool;
}.

Record BootStage := {
  bootloader : FirmwareComponent;
  kernel : FirmwareComponent;
  rootfs : FirmwareComponent;
  overallStatus : euint32;
  timestamp : N;
}.

Inductive Event :=
| FirmwareRegistered (device : address)
| BootAttempt (device : address) (stageId : N)
| VerificationPassed (device : address) (stageId : N)
| VerificationFailed (device : address) (stageId : N)
| ThresholdUpdated (newThreshold : N).

(** Why a call reverted. *)
Inductive Error :=
| RequireFailed (reason : string)
| Panic (code : N)
| AbiDecodeFailed
| LibraryRevert.

(** Panic codes of the compiler: checked arithmetic and array index. *)
Definition PANIC_ARITHMETIC : N := 17.
Definition PANIC_INDEX : N := 50.

(** The three components of a stage, as targets of a flag write. *)
Inductive Slot := Bootloader | Kernel | Rootfs.

Definition markVerified (c : FirmwareComponent) : FirmwareComponent :=
  {| encryptedChecksum := encryptedChecksum c;
     encryptedSize := encryptedSize c;
     encryptedVersion := encryptedVersion c;
     isVerified := true |}.

Definition component (sl : Slot) (st : BootStage) : FirmwareComponent :=
  match sl with
  | Bootloader => bootloader st
  | Kernel => kernel st
  | Rootfs => rootfs st
  end.

Definition markSlot (sl : Slot) (st : BootStage) : BootStage :=
  match sl with
  | Bootloader =>
      {| bootloader := markVerified (bootloader st); kernel := kernel st;
         rootfs := rootfs st; overallStatus := overallStatus st;
         timestamp := timestamp st |}
  | Kernel =>
      {| bootloader := bootloader st; kernel := markVerified (kernel st);
         rootfs := rootfs st; overallStatus := overallStatus st;
         timestamp := timestamp st |}
  | Rootfs =>
      {| bootloader := bootloader st; kernel := kernel st;
         rootfs := markVerified (rootfs st); overallStatus := overallStatus st;
         timestamp := timestamp st |}
  end.

Section Contract.

Context {oracle : FHE.DecryptionOracle} {branching : FHE.Branching}.

(** ** Storage *)

Record State := {
  deviceBootRecords : gmap address (list BootStage);
  trustedChecksums : gmap address euint32;
  trustedSizes : gmap address euint32;
  trustedVersions : gmap address euint32;
  verificationThreshold : N;
  admin : address;
  fheStorage : FHE.storage;
}.

(** ** Calls *)

Inductive Outcome (A : Type) :=
| Revert (e : Error)
| Return (a : A) (s : State) (log : list Event).
Arguments Revert {A} e.
Arguments Return {A} a s log.

Definition Call (A : Type) : Type := State -> Outcome A.

#[global] Instance Call_ret : MRet Call :=
  fun A a s => Return a s [].

#[global] Instance Call_bind : MBind Call :=
  fun A B k m s =>
    match m s with
    | Revert e => Revert e
    | Return a s1 log1 =>
        match k a s1 with
        | Revert e => Revert e
        | Return b s2 log2 => Return b s2 (log1 ++ log2)
        end
    end.

Definition revert {A} (e : Error) : Call A := fun _ => Revert e.

Definition require (cond : bool) (reason : string) : Call unit :=
  if cond then mret tt else revert (RequireFailed reason).

Definition emit (e : Event) : Call unit := fun s => Return tt s [e].

(** Reading and writing the contract's own storage. *)
Definition sload {A} (slot : State -> A) : Call A :=
  fun s => Return (slot s) s [].

Definition sstore (f : State -> State) : Call unit :=
  fun s => Return tt (f s) [].

(** Checked subtraction on [uint256]. *)
Definition checked_sub (a b : N) : Call N :=
  if a <? b then revert (Panic PANIC_ARITHMETIC) else mret (a - b).

Definition abi_decode (data : bytes) : Call N :=
  match Solidity.abi_decode_uint32 data with
  | Some v => mret v
  | None => revert AbiDecodeFailed
  end.

Definition with_deviceBootRecords
    (m : gmap address (list BootStage)) (s : State) : State :=
  {| deviceBootRecords := m;
     trustedChecksums := trustedChecksums s;
     trustedSizes := trustedSizes s;
     trustedVersions := trustedVersions s;
     verificationThreshold := verificationThreshold s;
     admin := admin s;
     fheStorage := fheStorage s |}.

Definition with_fheStorage (st : FHE.storage) (s : State) : State :=
  {| deviceBootRecords := deviceBootRecords s;
     trustedChecksums := trustedChecksums s;
     trustedSizes := trustedSizes s;
     trustedVersions := trustedVersions s;
     verificationThreshold := verificationThreshold s;
     admin := admin s;
     fheStorage := st |}.

(** [deviceBootRecords[device]] and its [length]. *)
Definition recordsOf (s : State) (device : address) : list BootStage :=
  deviceBootRecords s !!! device.

Definition lengthOf (s : State) (device : address) : N :=
  N.of_nat (length (recordsOf s device)).

(** [deviceBootRecords[device].push(stage)] *)
Definition push (device : address) (stage : BootStage) : Call unit :=
  sstore (fun s =>
    with_deviceBootRecords
      (<[device := recordsOf s device ++ [stage]]> (deviceBootRecords s)) s).

(** [deviceBootRecords[device][stageId]]: an index past the end panics. *)
Definition index (device : address) (stageId : N) : Call BootStage :=
  fun s =>
    match recordsOf s device !! N.to_nat stageId with
    | Some st => Return st s []
    | None => Revert (Panic PANIC_INDEX)
    end.

(** [deviceBootRecords[device][stageId].<slot>.isVerified = true] *)
Definition setVerified (device : address) (stageId : N) (sl : Slot) : Call unit :=
  st ← index device stageId;
  sstore (fun s =>
    with_deviceBootRecords
      (<[device := <[N.to_nat stageId := markSlot sl st]> (recordsOf s device)]>
         (deviceBootRecords s)) s).

(** The two library calls that touch storage. *)
Definition FHE_requestDecryption (ciphertexts : list euint32)
    (callbackSelector : Solidity.Selector) : Call N :=
  fun s =>
    match FHE.requestDecryption ciphertexts callbackSelector (fheStorage s) with
    | Some (reqId, st) => Return reqId (with_fheStorage st s) []
    | None => Revert LibraryRevert
    end.

Definition FHE_checkSignatures (requestId : N) (cleartexts proof : bytes) : Call unit :=
  fun s =>
    match FHE.checkSignatures requestId cleartexts proof (fheStorage s) with
    | Some st => Return tt (with_fheStorage st s) []
    | None => Revert LibraryRevert
    end.

(** ** The contract *)

Definition constructor (msg_sender : address) (_threshold : N) : State :=
  {| deviceBootRecords := ∅;
     trustedChecksums := ∅;
     trustedSizes := ∅;
     trustedVersions := ∅;
     verificationThreshold := _threshold;
     admin := msg_sender;
     fheStorage := FHE.empty_storage |}.

Definition onlyAdmin (msg_sender : address) : Call unit :=
  a ← sload admin;
  require (bool_decide (msg_sender = a)) "Admin only".

Definition registerTrustedFirmware (msg_sender : address)
    (device : address) (checksum size version : euint32) : Call unit :=
  onlyAdmin msg_sender;;
  sstore (fun s =>
    {| deviceBootRecords := deviceBootRecords s;
       trustedChecksums := <[device := checksum]> (trustedChecksums s);
       trustedSizes := <[device := size]> (trustedSizes s);
       trustedVersions := <[device := version]> (trustedVersions s);
       verificationThreshold := verificationThreshold s;
       admin := admin s;
       fheStorage := fheStorage s |});;
  emit (FirmwareRegistered device).

Definition verifyComponent (device : address) (component : FirmwareComponent)
    : Call euint32 :=
  trustedChecksum ← sload (fun s => trustedChecksums s !!! device);
  let checksumValid := FHE.eq (encryptedChecksum component) trustedChecksum in
  trustedSize ← sload (fun s => trustedSizes s !!! device);
  let sizeValid := FHE.eq (encryptedSize component) trustedSize in
  let versionValid := FHE.gt (encryptedVersion component) (FHE.asEuint32 0) in
  let componentScore := FHE.asEuint32 0 in
  let componentScore :=
    FHE.add componentScore
      (FHE.select checksumValid (FHE.asEuint32 1) (FHE.asEuint32 0)) in
  let componentScore :=
    FHE.add componentScore
      (FHE.select sizeValid (FHE.asEuint32 1) (FHE.asEuint32 0)) in
  let componentScore :=
    FHE.add componentScore
      (FHE.select versionValid (FHE.asEuint32 1) (FHE.asEuint32 0)) in
  mret componentScore.

Definition verifyBootStage (msg_sender : address) (block_timestamp : N)
    (bootloaderChecksum bootloaderSize bootloaderVersion
     kernelChecksum kernelSize kernelVersion
     rootfsChecksum rootfsSize rootfsVersion : euint32) : Call unit :=
  let device := msg_sender in
  let bootloader :=
    {| encryptedChecksum := bootloaderChecksum;
       encryptedSize := bootloaderSize;
       encryptedVersion := bootloaderVersion;
       isVerified := false |} in
  let kernel :=
    {| encryptedChecksum := kernelChecksum;
       encryptedSize := kernelSize;
       encryptedVersion := kernelVersion;
       isVerified := false |} in
  let rootfs :=
    {| encryptedChecksum := rootfsChecksum;
       encryptedSize := rootfsSize;
       encryptedVersion := rootfsVersion;
       isVerified := false |} in
  bootloaderValid ← verifyComponent device bootloader;
  kernelValid ← verifyComponent device kernel;
  rootfsValid ← verifyComponent device rootfs;
  let overallStatus := FHE.asEuint32 0 in
  let overallStatus := FHE.add overallStatus bootloaderValid in
  let overallStatus := FHE.add overallStatus kernelValid in
  let overallStatus := FHE.add overallStatus rootfsValid in
  stageId ← sload (fun s => lengthOf s device);
  push device
    {| bootloader := bootloader;
       kernel := kernel;
       rootfs := rootfs;
       overallStatus := overallStatus;
       timestamp := block_timestamp |};;
  emit (BootAttempt device stageId);;
  threshold ← sload verificationThreshold;
  if FHE.taken
       (FHE.gt overallStatus (FHE.asEuint32 (Solidity.uint32 threshold))) then
    setVerified device stageId Bootloader;;
    setVerified device stageId Kernel;;
    setVerified device stageId Rootfs;;
    emit (VerificationPassed device stageId)
  else
    emit (VerificationFailed device stageId).

Definition requestBootStatusDecryption (msg_sender : address) (stageId : N)
    : Call unit :=
  let device := msg_sender in
  len ← sload (fun s => lengthOf s device);
  require (stageId <? len) "Invalid stage ID";;
  stage ← index device stageId;
  let ciphertexts := [FHE.toBytes32 (overallStatus stage)] in
  reqId ← FHE_requestDecryption ciphertexts Solidity.Selector_decryptBootStatus;
  mret tt.

Definition decryptBootStatus (msg_sender : address)
    (requestId : N) (cleartexts proof : bytes) : Call unit :=
  FHE_checkSignatures requestId cleartexts proof;;
  status ← abi_decode cleartexts;
  let device := msg_sender in
  len ← sload (fun s => lengthOf s device);
  latestStage ← checked_sub len 1;
  threshold ← sload verificationThreshold;
  if Solidity.uint32 threshold <? status then
    setVerified device latestStage Bootloader;;
    setVerified device latestStage Kernel;;
    setVerified device latestStage Rootfs
  else
    mret tt.

Definition updateVerificationThreshold (msg_sender : address)
    (newThreshold : N) : Call unit :=
  onlyAdmin msg_sender;;
  sstore (fun s =>
    {| deviceBootRecords := deviceBootRecords s;
       trustedChecksums := trustedChecksums s;
       trustedSizes := trustedSizes s;
       trustedVersions := trustedVersions s;
       verificationThreshold := newThreshold;
       admin := admin s;
       fheStorage := fheStorage s |});;
  emit (ThresholdUpdated newThreshold).

Definition getBootStageCount (device : address) : Call N :=
  sload (fun s => lengthOf s device).

Definition getBootStageStatus (device : address) (stageId : N)
    : Call (bool * bool * bool * N) :=
  len ← sload (fun s => lengthOf s device);
  require (stageId <? len) "Invalid stage ID";;
  stage ← index device stageId;
  mret (isVerified (bootloader stage),
        isVerified (kernel stage),
        isVerified (rootfs stage),
        timestamp stage).

End Contract.

Arguments Revert {oracle A} e.
Arguments Return {oracle A} a s log.

(** ** Transactions

    A transaction is a call with its context.  A reverted call leaves the
    storage as it was. *)

Record Env := {
  msg_sender : address;
  block_timestamp : N;
}.

(** The external functions.  The getters the compiler generates for the
    public variables are reads like the two accessors and are left out. *)
Inductive Message :=
| Msg_registerTrustedFirmware (device : address) (checksum size version : euint32)
| Msg_verifyBootStage
    (bootloaderChecksum bootloaderSize bootloaderVersion
     kernelChecksum kernelSize kernelVersion
     rootfsChecksum rootfsSize rootfsVersion : euint32)
| Msg_requestBootStatusDecryption (stageId : N)
| Msg_decryptBootStatus (requestId : N) (cleartexts proof : bytes)
| Msg_updateVerificationThreshold (newThreshold : N)
| Msg_getBootStageCount (device : address)
| Msg_getBootStageStatus (device : address) (stageId : N).

Section Transactions.

Context {oracle : FHE.DecryptionOracle} {branching : FHE.Branching}.

Definition dispatch (env : Env) (m : Message) : Call unit :=
  match m with
  | Msg_registerTrustedFirmware device checksum size version =>
      registerTrustedFirmware (msg_sender env) device checksum size version
  | Msg_verifyBootStage bc bs bv kc ks kv rc rs rv =>
      verifyBootStage (msg_sender env) (block_timestamp env)
        bc bs bv kc ks kv rc rs rv
  | Msg_requestBootStatusDecryption stageId =>
      requestBootStatusDecryption (msg_sender env) stageId
  | Msg_decryptBootStatus requestId cleartexts proof =>
      decryptBootStatus (msg_sender env) requestId cleartexts proof
  | Msg_updateVerificationThreshold newThreshold =>
      updateVerificationThreshold (msg_sender env) newThreshold
  | Msg_getBootStageCount device =>
      getBootStageCount device;; mret tt
  | Msg_getBootStageStatus device stageId =>
      getBootStageStatus device stageId;; mret tt
  end.

(** The storage after a call: the call's result, or the old storage when
    the call reverted. *)
Definition commit {A} (c : Call A) (s : State) : State :=
  match c s with
  | Revert _ => s
  | Return _ s' _ => s'
  end.

(** The events a call leaves in the log: none when it reverted. *)
Definition logged {A} (c : Call A) (s : State) : list Event :=
  match c s with
  | Revert _ => []
  | Return _ _ log => log
  end.

Definition execute (tx : Env * Message) (s : State) : State :=
  commit (dispatch tx.1 tx.2) s.

Definition run (txs : list (Env * Message)) (s : State) : State :=
  fold_left (fun s tx => execute tx s) txs s.

(** ** What a stage scores, in plaintext

    The score of one component as the specification words it: one point
    for a checksum equal to the reference, one for a size equal to the
    reference, one for a version above zero. *)
Definition componentPoints (s : State) (device : address)
    (c : FirmwareComponent) : N :=
  N.b2n (FHE.plain (encryptedChecksum c) =? FHE.plain (trustedChecksums s !!! device))
  + N.b2n (FHE.plain (encryptedSize c) =? FHE.plain (trustedSizes s !!! device))
  + N.b2n (0 <? FHE.plain (encryptedVersion c)).

Definition stagePoints (s : State) (device : address)
    (b k r : FirmwareComponent) : N :=
  componentPoints s device b + componentPoints s device k
  + componentPoints s device r.

(** Whether a plaintext score passes the threshold as the contract
    compares it: strictly above the threshold's low 32 bits. *)
Definition passes (s : State) (score : N) : bool :=
  Solidity.uint32 (verificationThreshold s) <? score.

Definition submitted (checksum size version : euint32) (flag : bool)
    : FirmwareComponent :=
  {| encryptedChecksum := checksum;
     encryptedSize := size;
     encryptedVersion := version;
     isVerified := flag |}.

(** All three flags of a stage. *)
Definition flags (st : BootStage) : bool * bool * bool :=
  (isVerified (bootloader st), isVerified (kernel st), isVerified (rootfs st)).

(** The record a submission leaves behind: the nine handles, the encrypted
    sum of the component scores, the block's timestamp, and flags that
    tell which branch the submission's [if] took. *)
Definition stageRecord (s : State) (device : address) (ts : N)
    (bc bs bv kc ks kv rc rs rv : euint32) : BootStage :=
  let score :=
    stagePoints s device (submitted bc bs bv false)
      (submitted kc ks kv false) (submitted rc rs rv false) in
  {| bootloader := submitted bc bs bv (FHE.taken (passes s score));
     kernel := submitted kc ks kv (FHE.taken (passes s score));
     rootfs := submitted rc rs rv (FHE.taken (passes s score));
     overallStatus := FHE.Enc score;
     timestamp := ts |}.

(** A stage with all three flags written, in the order the contract
    writes them. *)
Definition markAll (st : BootStage) : BootStage :=
  markSlot Rootfs (markSlot Kernel (markSlot Bootloader st)).

Definition reverted {A} (o : Outcome A) : bool :=
  match o with
  | Revert _ => true
  | Return _ _ _ => false
  end.

(** The points of a component against the default profile: what the
    reference slots hold when nothing was registered. *)
Definition defaultPoints (checksum size version : euint32) : N :=
  N.b2n (FHE.plain checksum =? 0) + N.b2n (FHE.plain size =? 0)
  + N.b2n (0 <? FHE.plain version).

(** [st'] has every flag that [st] has. *)
Definition keepsFlags (st st' : BootStage) : Prop :=
  ∀ sl, isVerified (component sl st) = true →
        isVerified (component sl st') = true.

(** [l'] still has every record of [l], at the same index, with at least
    the flags it had. *)
Definition extends (l l' : list BootStage) : Prop :=
  ∀ i st, l !! i = Some st → ∃ st', l' !! i = Some st' ∧ keepsFlags st st'.

(** Whether a transaction is a stage submission by [device]. *)
Definition isSubmissionBy (device : address) (tx : Env * Message) : bool :=
  match tx.2 with
  | Msg_verifyBootStage _ _ _ _ _ _ _ _ _ => bool_decide (msg_sender tx.1 = device)
  | _ => false
  end.

End Transactions.

(** ** A reference decryption oracle

    One instance of the oracle interface, used to run the contract on
    concrete inputs.  It follows the library's bookkeeping: a request
    counter, and the handles saved under each request id.  Checking a
    callback loads the handles saved for the request id -- and reverts when
    there are none -- and verifies the proof against them; it removes
    nothing.  Signatures are ideal: a non-empty proof verifies exactly when
    the cleartexts are the encoded plaintexts of the requested handles. *)

Module Gateway.

Record Requests := {
  counterRequest : N;
  requestedHandles : gmap N (list euint32);
}.

Definition encodePlaintexts (handles : list euint32) : bytes :=
  mjoin ((fun h => Solidity.abi_encode_uint (FHE.plain h)) <$> handles).

Definition verifySignatures (handles : list euint32) (cleartexts proof : bytes)
    : bool :=
  bool_decide (Byte.to_N <$> cleartexts = Byte.to_N <$> encodePlaintexts handles)
  && negb (bool_decide (length proof = 0%nat)).

Definition requestDecryption (ciphertexts : list euint32)
    (callbackSelector : Solidity.Selector) (st : Requests)
    : option (N * Requests) :=
  Some (counterRequest st,
        {| counterRequest := counterRequest st + 1;
           requestedHandles :=
             <[counterRequest st := ciphertexts]> (requestedHandles st) |}).

Definition checkSignatures (requestID : N) (cleartexts proof : bytes)
    (st : Requests) : option Requests :=
  match requestedHandles st !! requestID with
  | Some (h :: handles) =>
      if verifySignatures (h :: handles) cleartexts proof then Some st else None
  | _ => None
  end.

#[global] Instance oracle : FHE.DecryptionOracle := {|
  FHE.storage := Requests;
  FHE.empty_storage := {| counterRequest := 0; requestedHandles := ∅ |};
  FHE.requestDecryption := requestDecryption;
  FHE.checkSignatures := checkSignatures;
|}.

(** For the concrete runs, an [if] on an encrypted boolean follows the
    truth value behind it. *)
#[global] Instance branching : FHE.Branching := {|
  FHE.taken := fun c => c;
|}.

End Gateway.

(** ** Concrete runs

    An administrator, two devices, and the messages of the specification's
    scenarios: the reference profile (42, 1024, 3) and evidence that matches
    it except, possibly, for the bootloader checksum. *)

Module Scenario.

Definition ADMIN : address := 1.
Definition DEVICE : address := 2.
Definition STRANGER : address := 3.

Definition NOW : N := 1700000000.

Definition sentBy (who : address) : Env :=
  {| msg_sender := who; block_timestamp := NOW |}.

Definition from (who : address) (m : Message) : Env * Message :=
  (sentBy who, m).

Definition deployed (threshold : N) : @State Gateway.oracle :=
  constructor ADMIN threshold.

Definition registerReference : Message :=
  Msg_registerTrustedFirmware DEVICE (FHE.Enc 42) (FHE.Enc 1024) (FHE.Enc 3).

Definition evidence (bootloaderChecksum : N) : Message :=
  Msg_verifyBootStage
    (FHE.Enc bootloaderChecksum) (FHE.Enc 1024) (FHE.Enc 3)
    (FHE.Enc 42) (FHE.Enc 1024) (FHE.Enc 3)
    (FHE.Enc 42) (FHE.Enc 1024) (FHE.Enc 3).

(** Evidence in which only the three versions are plausible. *)
Definition strayEvidence : Message :=
  Msg_verifyBootStage
    (FHE.Enc 7) (FHE.Enc 7) (FHE.Enc 1)
    (FHE.Enc 7) (FHE.Enc 7) (FHE.Enc 1)
    (FHE.Enc 7) (FHE.Enc 7) (FHE.Enc 1).

(** The oracle's answer to request [requestId]: a decrypted score. *)
Definition delivery (requestId score : N) : Message :=
  Msg_decryptBootStatus requestId (Solidity.abi_encode_uint score) [Byte.x01].

(** The flags of stage [i] of [device], as [getBootStageStatus] reads them. *)
Definition flagsAt (s : @State Gateway.oracle) (device : address) (i : nat)
    : option (bool * bool * bool) :=
  flags <$> recordsOf s device !! i.

(** The device has submitted the tampered evidence against a threshold of
    8 and asked for the decryption of the resulting stage. *)
Definition pendingState : @State Gateway.oracle :=
  run [from ADMIN registerReference;
       from DEVICE (evidence 41);
       from DEVICE (Msg_requestBootStatusDecryption 0)] (deployed 8).


(** The device has submitted matching evidence against a threshold of 5. *)
Definition verifiedState : @State Gateway.oracle :=
  run [from ADMIN registerReference; from DEVICE (evidence 42)] (deployed 5).

Definition verifiedStage : BootStage :=
  {| bootloader := submitted (FHE.Enc 42) (FHE.Enc 1024) (FHE.Enc 3) true;
     kernel := submitted (FHE.Enc 42) (FHE.Enc 1024) (FHE.Enc 3) true;
     rootfs := submitted (FHE.Enc 42) (FHE.Enc 1024) (FHE.Enc 3) true;
     overallStatus := FHE.Enc 9;
     timestamp := NOW |}.

(** Stage 0 scored 9 under a threshold of 9 and its decryption was
    requested (request 0); the device then appended stage 1, which scores 3,
    and the threshold was lowered to 5. *)
Definition twoStageState : @State Gateway.oracle :=
  run [from ADMIN registerReference;
       from DEVICE (evidence 42);
       from DEVICE (Msg_requestBootStatusDecryption 0);
       from DEVICE strayEvidence;
       from ADMIN (Msg_updateVerificationThreshold 5)] (deployed 9).

Definition requestedStage : BootStage :=
  {| bootloader := submitted (FHE.Enc 42) (FHE.Enc 1024) (FHE.Enc 3) false;
     kernel := submitted (FHE.Enc 42) (FHE.Enc 1024) (FHE.Enc 3) false;
     rootfs := submitted (FHE.Enc 42) (FHE.Enc 1024) (FHE.Enc 3) false;
     overallStatus := FHE.Enc 9;
     timestamp := NOW |}.

Definition latestStage : BootStage :=
  {| bootloader := submitted (FHE.Enc 7) (FHE.Enc 7) (FHE.Enc 1) false;
     kernel := submitted (FHE.Enc 7) (FHE.Enc 7) (FHE.Enc 1) false;
     rootfs := submitted (FHE.Enc 7) (FHE.Enc 7) (FHE.Enc 1) false;
     overallStatus := FHE.Enc 3;
     timestamp := NOW |}.

End Scenario.

(** ** A permissive oracle

    A second instance of the oracle interface, whose check accepts every
    callback.  With it, whatever refuses a callback is the contract's own
    doing. *)

Module Permissive.

Definition oracle : FHE.DecryptionOracle := {|
  FHE.storage := unit;
  FHE.empty_storage := tt;
  FHE.requestDecryption := fun _ _ st => Some (0, st);
  FHE.checkSignatures := fun _ _ _ st => Some st;
|}.

(** Device 2 has submitted one stage, right after deployment by 1 with a
    threshold of 5. *)
Definition oneStage : @State oracle :=
  @commit oracle unit
    (@verifyBootStage oracle Gateway.branching 2 1700000000
       (FHE.Enc 42) (FHE.Enc 1024) (FHE.Enc 3)
       (FHE.Enc 42) (FHE.Enc 1024) (FHE.Enc 3)
       (FHE.Enc 42) (FHE.Enc 1024) (FHE.Enc 3))
    (@constructor oracle 1 5).

End Permissive.

(** ** Vocabulary for the life of a deployed contract *)

Section Lifetime.

Context {oracle : FHE.DecryptionOracle} {branching : FHE.Branching}.

(** The reference profile a device is scored against: the three reference
    slots of the device. *)
Definition profileOf (s : State) (device : address)
    : euint32 * euint32 * euint32 :=
  (trustedChecksums s !!! device, trustedSizes s !!! device,
   trustedVersions s !!! device).

(** The threshold after a transaction, given the administrator [adm] and the
    threshold [t] before it: only an update sent by [adm] moves it. *)
Definition thresholdAfter (adm : address) (t : N) (tx : Env * Message) : N :=
  match tx.2 with
  | Msg_updateVerificationThreshold newThreshold =>
      if bool_decide (msg_sender tx.1 = adm) then newThreshold else t
  | _ => t
  end.

(** The profile of [device] after a transaction: only a registration for
    [device] sent by [adm] moves it. *)
Definition profileAfter (adm device : address)
    (p : euint32 * euint32 * euint32) (tx : Env * Message)
    : euint32 * euint32 * euint32 :=
  match tx.2 with
  | Msg_registerTrustedFirmware target checksum size version =>
      if bool_decide (msg_sender tx.1 = adm) && bool_decide (target = device)
      then (checksum, size, version)
      else p
  | _ => p
  end.

(** A record with its three flags cleared: what was submitted and scored. *)
Definition clearFlags (st : BootStage) : BootStage :=
  {| bootloader :=
       submitted (encryptedChecksum (bootloader st))
         (encryptedSize (bootloader st)) (encryptedVersion (bootloader st))
         false;
     kernel :=
       submitted (encryptedChecksum (kernel st))
         (encryptedSize (kernel st)) (encryptedVersion (kernel st)) false;
     rootfs :=
       submitted (encryptedChecksum (rootfs st))
         (encryptedSize (rootfs st)) (encryptedVersion (rootfs st)) false;
     overallStatus := overallStatus st;
     timestamp := timestamp st |}.

(** The three flags of a record agree. *)
Definition uniformFlags (st : BootStage) : Prop :=
  isVerified (bootloader st) = isVerified (kernel st)
  ∧ isVerified (kernel st) = isVerified (rootfs st).

(** The stored score is a proper handle to a plaintext of at most 9. *)
Definition boundedScore (st : BootStage) : Prop :=
  ∃ p, overallStatus st = FHE.Enc p ∧ p <= 9.

(** Whether one submitted component earns all three points against the
    profile of [device]. *)
Definition fullMatch (s : State) (device : address)
    (checksum size version : euint32) : Prop :=
  FHE.plain checksum = FHE.plain (trustedChecksums s !!! device)
  ∧ FHE.plain size = FHE.plain (trustedSizes s !!! device)
  ∧ 0 < FHE.plain version.

End Lifetime.

(** ** The dashboard's record list

    The web front end ([App.tsx]) keeps a list of records, counts them by
    status and shows them five to a page.  JavaScript numbers that hold
    indices and page numbers are integers here; [Array.prototype.slice] is
    written out with its treatment of negative and oversized indices. *)

Module Dashboard.

Record BootRecord := {
  id : string;
  checksum : string;
  timestamp : Z;
  status : string;
  deviceId : string;
  firmwareVersion : string;
}.

(** [records.filter(r => r.status === wanted).length] *)
Definition countWithStatus (wanted : string) (records : list BootRecord) : nat :=
  length (filter (fun r => status r = wanted) records).

Definition verifiedCount (records : list BootRecord) : nat :=
  countWithStatus "verified" records.

Definition pendingCount (records : list BootRecord) : nat :=
  countWithStatus "pending" records.

Definition failedCount (records : list BootRecord) : nat :=
  countWithStatus "failed" records.

(** [l.slice(start, end)]: a negative index counts from the end, and both
    indices are clamped to the list. *)
Definition slice {A} (l : list A) (start finish : Z) : list A :=
  let len := Z.of_nat (length l) in
  let k := (if start <? 0 then Z.max (len + start) 0 else Z.min start len)%Z in
  let final :=
    (if finish <? 0 then Z.max (len + finish) 0 else Z.min finish len)%Z in
  take (Z.to_nat (final - k)) (drop (Z.to_nat k) l).

Definition itemsPerPage : Z := 5.

Definition indexOfLastItem (currentPage : Z) : Z :=
  (currentPage * itemsPerPage)%Z.

Definition indexOfFirstItem (currentPage : Z) : Z :=
  (indexOfLastItem currentPage - itemsPerPage)%Z.

Definition currentRecords {A} (filteredRecords : list A) (currentPage : Z)
    : list A :=
  slice filteredRecords (indexOfFirstItem currentPage)
    (indexOfLastItem currentPage).

(** [Math.ceil(filteredRecords.length / itemsPerPage)] *)
Definition totalPages {A} (filteredRecords : list A) : Z :=
  ((Z.of_nat (length filteredRecords) + itemsPerPage - 1) / itemsPerPage)%Z.

(** The page buttons, rendered only when there is more than one page:
    [totalPages > 1 && Array.from({ length: totalPages }, (_, i) => i + 1)]. *)
Definition pageButtons {A} (filteredRecords : list A) : list Z :=
  if (1 <? totalPages filteredRecords)%Z then
    (fun i => (Z.of_nat i + 1)%Z)
      <$> seq 0 (Z.to_nat (totalPages filteredRecords))
  else [].

(** The page shown when the dashboard opens: [useState(1)]. *)
Definition initialPage : Z := 1.

End Dashboard.

(** ** Proof support *)

Ltac call_unfold :=
  unfold mbind, mret, Call_bind, Call_ret, sload, sstore, emit, require,
    revert, checked_sub, abi_decode in *.

Section Basics.

Context {oracle : FHE.DecryptionOracle} {branching : FHE.Branching}.

Implicit Types (s : State) (d device : address).

Lemma recordsOf_with_insert s d l :
  recordsOf (with_deviceBootRecords (<[d := l]> (deviceBootRecords s)) s) d = l.
Proof. unfold recordsOf; simpl. by rewrite lookup_total_insert_eq. Qed.

Lemma recordsOf_with_insert_ne s d d' l :
  d ≠ d' →
  recordsOf (with_deviceBootRecords (<[d := l]> (deviceBootRecords s)) s) d'
  = recordsOf s d'.
Proof. intros. unfold recordsOf; simpl. by rewrite lookup_total_insert_ne. Qed.

(** A component score is the encryption of its points. *)
Lemma verifyComponent_eq s device c :
  verifyComponent device c s
  = Return (FHE.Enc (componentPoints s device c)) s [].
Proof.
  unfold verifyComponent, componentPoints. call_unfold. simpl.
  do 2 f_equal.
  unfold FHE.eq, FHE.gt, FHE.select, FHE.add, FHE.asEuint32, Solidity.uint32.
  destruct (_ =? _), (_ =? _), (_ <? _); reflexivity.
Qed.

Lemma componentPoints_le s device c : componentPoints s device c <= 3.
Proof.
  unfold componentPoints.
  destruct (_ =? _), (_ =? _), (_ <? _); simpl; lia.
Qed.

End Basics.

Section Submission.

Context {oracle : FHE.DecryptionOracle} {branching : FHE.Branching}.

Implicit Types (s : State) (d device : address).

Lemma index_last s d l st :
  recordsOf s d = l ++ [st] →
  index d (N.of_nat (length l)) s = Return st s [].
Proof.
  intros Hl. unfold index. rewrite Nat2N.id, Hl.
  by rewrite list_lookup_middle.
Qed.

(** Writing a flag of the last record of a history. *)
Lemma setVerified_last s d l st sl :
  recordsOf s d = l ++ [st] →
  setVerified d (N.of_nat (length l)) sl s
  = Return tt
      (with_deviceBootRecords
         (<[d := l ++ [markSlot sl st]]> (deviceBootRecords s)) s) [].
Proof.
  intros Hl. unfold setVerified. call_unfold.
  rewrite (index_last _ _ _ _ Hl). simpl.
  rewrite Nat2N.id, Hl.
  replace (length l) with (length l + 0)%nat at 1 by lia.
  by rewrite insert_app_r.
Qed.

Lemma stagePoints_le s device b k r : stagePoints s device b k r <= 9.
Proof.
  unfold stagePoints.
  pose proof (componentPoints_le s device b).
  pose proof (componentPoints_le s device k).
  pose proof (componentPoints_le s device r). lia.
Qed.

Lemma setVerified_pushed s d m l st sl :
  setVerified d (N.of_nat (length l)) sl
    (with_deviceBootRecords (<[d := l ++ [st]]> m) s)
  = Return tt (with_deviceBootRecords (<[d := l ++ [markSlot sl st]]> m) s) [].
Proof.
  rewrite (setVerified_last _ d l st).
  - simpl. by rewrite insert_insert_eq.
  - unfold recordsOf; simpl. by rewrite lookup_total_insert_eq.
Qed.

Lemma bind_eq {A B} (m : Call A) (k : A → Call B) s :
  (m ≫= k) s
  = match m s with
    | Revert e => Revert e
    | Return a s1 log1 =>
        match k a s1 with
        | Revert e => Revert e
        | Return b s2 log2 => Return b s2 (log1 ++ log2)
        end
    end.
Proof. reflexivity. Qed.

(** The encrypted sum of three component scores. *)
Lemma overall_eq p1 p2 p3 :
  p1 <= 3 → p2 <= 3 → p3 <= 3 →
  FHE.add (FHE.add (FHE.add (FHE.asEuint32 0) (FHE.Enc p1)) (FHE.Enc p2))
    (FHE.Enc p3)
  = FHE.Enc (p1 + p2 + p3).
Proof.
  intros H1 H2 H3.
  unfold FHE.add, FHE.asEuint32, Solidity.uint32. simpl FHE.plain.
  change (0 mod 2 ^ 32) with 0.
  rewrite (N.mod_small (0 + p1)) by lia.
  rewrite (N.mod_small (0 + p1 + p2)) by lia.
  rewrite (N.mod_small (0 + p1 + p2 + p3)) by lia.
  f_equal; lia.
Qed.

Lemma gt_threshold s score :
  FHE.gt (FHE.Enc score)
    (FHE.asEuint32 (Solidity.uint32 (verificationThreshold s)))
  = passes s score.
Proof.
  unfold FHE.gt, FHE.asEuint32, passes, Solidity.uint32. simpl.
  by rewrite N.Div0.mod_mod.
Qed.

(** The whole effect of a submission. *)
Lemma verifyBootStage_eq s sender ts bc bs bv kc ks kv rc rs rv :
  let score :=
    stagePoints s sender (submitted bc bs bv false)
      (submitted kc ks kv false) (submitted rc rs rv false) in
  let stageId := lengthOf s sender in
  verifyBootStage sender ts bc bs bv kc ks kv rc rs rv s
  = Return tt
      (with_deviceBootRecords
         (<[sender := recordsOf s sender
                      ++ [stageRecord s sender ts bc bs bv kc ks kv rc rs rv]]>
            (deviceBootRecords s)) s)
      [BootAttempt sender stageId;
       if FHE.taken (passes s score) then VerificationPassed sender stageId
       else VerificationFailed sender stageId].
Proof.
  intros score stageId.
  unfold verifyBootStage.
  rewrite bind_eq, verifyComponent_eq.
  rewrite bind_eq, verifyComponent_eq.
  rewrite bind_eq, verifyComponent_eq.
  rewrite overall_eq by apply componentPoints_le.
  fold (submitted bc bs bv false) (submitted kc ks kv false)
    (submitted rc rs rv false).
  change (componentPoints s sender (submitted bc bs bv false)
          + componentPoints s sender (submitted kc ks kv false)
          + componentPoints s sender (submitted rc rs rv false)) with score.
  rewrite bind_eq. unfold sload at 1.
  rewrite bind_eq. unfold push, sstore at 1.
  rewrite bind_eq. unfold emit at 1.
  rewrite bind_eq. unfold sload at 1.
  simpl verificationThreshold.
  rewrite gt_threshold.
  change (passes _ score) with (passes s score).
  unfold stageRecord. fold score. fold stageId.
  destruct (FHE.taken (passes s score)) eqn:Hp.
  - unfold stageId, lengthOf.
    rewrite bind_eq, setVerified_pushed.
    rewrite bind_eq, setVerified_pushed.
    rewrite bind_eq, setVerified_pushed.
    reflexivity.
  - reflexivity.
Qed.

End Submission.

Section Callback.

Context {oracle : FHE.DecryptionOracle} {branching : FHE.Branching}.

Implicit Types (s : State) (d device : address).

Lemma lengthOf_with_fheStorage s fst d :
  lengthOf (with_fheStorage fst s) d = lengthOf s d.
Proof. reflexivity. Qed.

(** The callback of a sender without history stops at [length - 1]. *)
Lemma decryptBootStatus_empty s sender requestId cleartexts proof :
  recordsOf s sender = [] →
  decryptBootStatus sender requestId cleartexts proof s
  = match FHE.checkSignatures requestId cleartexts proof (fheStorage s) with
    | None => Revert LibraryRevert
    | Some _ =>
        match Solidity.abi_decode_uint32 cleartexts with
        | None => Revert AbiDecodeFailed
        | Some _ => Revert (Panic PANIC_ARITHMETIC)
        end
    end.
Proof.
  intros Hl. unfold decryptBootStatus.
  rewrite bind_eq. unfold FHE_checkSignatures at 1.
  destruct (FHE.checkSignatures _ _ _ _) as [fst|]; [|done].
  rewrite bind_eq. unfold abi_decode at 1.
  destruct (Solidity.abi_decode_uint32 _) as [status|]; [|done].
  simpl.
  rewrite bind_eq. unfold sload at 1.
  rewrite lengthOf_with_fheStorage. unfold lengthOf. rewrite Hl. simpl.
  reflexivity.
Qed.

(** The callback of a sender with a history decides on its last record,
    against the threshold in storage. *)
Lemma decryptBootStatus_snoc s sender requestId cleartexts proof l st :
  recordsOf s sender = l ++ [st] →
  decryptBootStatus sender requestId cleartexts proof s
  = match FHE.checkSignatures requestId cleartexts proof (fheStorage s) with
    | None => Revert LibraryRevert
    | Some fst =>
        match Solidity.abi_decode_uint32 cleartexts with
        | None => Revert AbiDecodeFailed
        | Some status =>
            if passes s status then
              Return tt
                (with_deviceBootRecords
                   (<[sender := l ++ [markAll st]]> (deviceBootRecords s))
                   (with_fheStorage fst s)) []
            else Return tt (with_fheStorage fst s) []
        end
    end.
Proof.
  intros Hl. unfold decryptBootStatus.
  rewrite bind_eq. unfold FHE_checkSignatures at 1.
  destruct (FHE.checkSignatures _ _ _ _) as [fst|]; [|done].
  rewrite bind_eq. unfold abi_decode at 1.
  destruct (Solidity.abi_decode_uint32 _) as [status|]; [|done].
  simpl.
  rewrite bind_eq. unfold sload at 1.
  rewrite lengthOf_with_fheStorage. unfold lengthOf. rewrite Hl.
  rewrite length_app. simpl length.
  rewrite bind_eq. unfold checked_sub.
  replace (N.of_nat (length l + 1) <? 1) with false
    by (symmetry; apply N.ltb_ge; lia).
  replace (N.of_nat (length l + 1) - 1) with (N.of_nat (length l)) by lia.
  simpl.
  rewrite bind_eq. unfold sload at 1.
  change (Solidity.uint32 (verificationThreshold (with_fheStorage fst s))
          <? status) with (passes s status).
  destruct (passes s status); [|reflexivity].
  assert (Hs : recordsOf (with_fheStorage fst s) sender = l ++ [st]) by done.
  rewrite bind_eq, (setVerified_last _ _ _ _ _ Hs).
  rewrite bind_eq, setVerified_pushed.
  rewrite setVerified_pushed.
  reflexivity.
Qed.

Lemma history_cases (l : list BootStage) :
  l = [] ∨ ∃ l' st, l = l' ++ [st].
Proof.
  destruct l as [|x l] using rev_ind; [by left | right; eauto].
Qed.

End Callback.

Section Frames.

Context {oracle : FHE.DecryptionOracle} {branching : FHE.Branching}.

Implicit Types (s : State) (d device : address).

Lemma onlyAdmin_eq s sender :
  onlyAdmin sender s
  = if bool_decide (sender = admin s) then Return tt s []
    else Revert (RequireFailed "Admin only").
Proof.
  unfold onlyAdmin. rewrite bind_eq. unfold sload, require.
  by destruct (bool_decide _).
Qed.

Lemma registerTrustedFirmware_eq s sender device checksum size version :
  registerTrustedFirmware sender device checksum size version s
  = if bool_decide (sender = admin s) then
      Return tt
        {| deviceBootRecords := deviceBootRecords s;
           trustedChecksums := <[device := checksum]> (trustedChecksums s);
           trustedSizes := <[device := size]> (trustedSizes s);
           trustedVersions := <[device := version]> (trustedVersions s);
           verificationThreshold := verificationThreshold s;
           admin := admin s;
           fheStorage := fheStorage s |}
        [FirmwareRegistered device]
    else Revert (RequireFailed "Admin only").
Proof.
  unfold registerTrustedFirmware. rewrite bind_eq, onlyAdmin_eq.
  by destruct (bool_decide _).
Qed.

Lemma updateVerificationThreshold_eq s sender newThreshold :
  updateVerificationThreshold sender newThreshold s
  = if bool_decide (sender = admin s) then
      Return tt
        {| deviceBootRecords := deviceBootRecords s;
           trustedChecksums := trustedChecksums s;
           trustedSizes := trustedSizes s;
           trustedVersions := trustedVersions s;
           verificationThreshold := newThreshold;
           admin := admin s;
           fheStorage := fheStorage s |}
        [ThresholdUpdated newThreshold]
    else Revert (RequireFailed "Admin only").
Proof.
  unfold updateVerificationThreshold. rewrite bind_eq, onlyAdmin_eq.
  by destruct (bool_decide _).
Qed.

Lemma requestBootStatusDecryption_eq s sender stageId :
  requestBootStatusDecryption sender stageId s
  = if stageId <? lengthOf s sender then
      match recordsOf s sender !! N.to_nat stageId with
      | Some stage =>
          match FHE.requestDecryption [overallStatus stage]
                  Solidity.Selector_decryptBootStatus (fheStorage s) with
          | Some (_, st) => Return tt (with_fheStorage st s) []
          | None => Revert LibraryRevert
          end
      | None => Revert (Panic PANIC_INDEX)
      end
    else Revert (RequireFailed "Invalid stage ID").
Proof.
  unfold requestBootStatusDecryption.
  rewrite bind_eq. unfold sload at 1.
  rewrite bind_eq. unfold require.
  destruct (stageId <? lengthOf s sender); [|done]. simpl.
  rewrite bind_eq. unfold index.
  destruct (recordsOf s sender !! N.to_nat stageId) as [stage|]; [|done].
  rewrite bind_eq. unfold FHE_requestDecryption, FHE.toBytes32.
  by destruct (FHE.requestDecryption _ _ _) as [[reqId st]|].
Qed.

(** The status accessor returns or reverts without writing. *)
Lemma getBootStageStatus_commit s device stageId :
  commit (getBootStageStatus device stageId) s = s.
Proof.
  unfold commit, getBootStageStatus.
  rewrite bind_eq. unfold sload at 1.
  rewrite bind_eq. unfold require.
  destruct (stageId <? lengthOf s device); [|done]. simpl.
  rewrite bind_eq. unfold index.
  by destruct (recordsOf s device !! N.to_nat stageId).
Qed.

(** Every call other than a submission or a callback leaves all boot
    histories as they were. *)
Lemma execute_records env m s :
  match m with
  | Msg_verifyBootStage _ _ _ _ _ _ _ _ _ => True
  | Msg_decryptBootStatus _ _ _ => True
  | _ => deviceBootRecords (execute (env, m) s) = deviceBootRecords s
  end.
Proof.
  destruct m; try done; unfold execute, commit, dispatch; simpl.
  - rewrite registerTrustedFirmware_eq. by destruct (bool_decide _).
  - rewrite requestBootStatusDecryption_eq.
    destruct (_ <? _); [|done].
    destruct (_ !! _); [|done].
    by destruct (FHE.requestDecryption _ _ _) as [[??]|].
  - rewrite updateVerificationThreshold_eq. by destruct (bool_decide _).
  - rewrite bind_eq.
    pose proof (getBootStageStatus_commit s device stageId) as H.
    unfold commit in H.
    destruct (getBootStageStatus device stageId s); [done|].
    simpl. by rewrite H.
Qed.

(** A submission appends one record to the sender's history. *)
Lemma execute_submission env bc bs bv kc ks kv rc rs rv s :
  let tx := (env, Msg_verifyBootStage bc bs bv kc ks kv rc rs rv) in
  deviceBootRecords (execute tx s)
  = <[msg_sender env :=
        recordsOf s (msg_sender env)
        ++ [stageRecord s (msg_sender env) (block_timestamp env)
              bc bs bv kc ks kv rc rs rv]]> (deviceBootRecords s).
Proof.
  unfold execute, commit, dispatch; simpl.
  by rewrite verifyBootStage_eq.
Qed.

(** A callback writes at most the flags of the sender's last record. *)
Lemma execute_callback env requestId cleartexts proof s :
  let tx := (env, Msg_decryptBootStatus requestId cleartexts proof) in
  deviceBootRecords (execute tx s) = deviceBootRecords s
  ∨ ∃ l st, recordsOf s (msg_sender env) = l ++ [st]
      ∧ deviceBootRecords (execute tx s)
        = <[msg_sender env := l ++ [markAll st]]> (deviceBootRecords s).
Proof.
  unfold execute, commit, dispatch; simpl.
  destruct (history_cases (recordsOf s (msg_sender env))) as [Hl|(l & st & Hl)].
  - rewrite (decryptBootStatus_empty _ _ _ _ _ Hl). left.
    destruct (FHE.checkSignatures _ _ _ _); [|done].
    by destruct (Solidity.abi_decode_uint32 _).
  - rewrite (decryptBootStatus_snoc _ _ _ _ _ _ _ Hl).
    destruct (FHE.checkSignatures _ _ _ _) as [fst|]; [|by left].
    destruct (Solidity.abi_decode_uint32 _) as [status|]; [|by left].
    destruct (passes s status); [|by left].
    right. by exists l, st.
Qed.

End Frames.

(** ** Stage submission *)

Section SubmissionProperties.

Context {oracle : FHE.DecryptionOracle} {branching : FHE.Branching}.

Implicit Types (s : State) (d device : address).

Lemma lengthOf_snoc s s' d st :
  recordsOf s' d = recordsOf s d ++ [st] →
  lengthOf s' d = lengthOf s d + 1.
Proof. unfold lengthOf. intros ->. rewrite length_app. simpl. lia. Qed.

(** Calls other than a submission by [d] keep the length of [d]'s history. *)
Lemma execute_length tx s d :
  lengthOf (execute tx s) d
  = lengthOf s d + N.b2n (isSubmissionBy d tx).
Proof.
  destruct tx as [env m]. unfold isSubmissionBy; simpl.
  destruct m as [dev cs sz v | bc bs bv kc ks kv rc rs rv | stageId
                 | requestId cleartexts proof | n | dev | dev stageId];
    try (match goal with
         | |- context [execute (_, ?m) _] =>
             pose proof (execute_records env m s) as H
         end;
         cbv beta iota in H;
         unfold lengthOf, recordsOf; rewrite H; simpl; lia).
  - pose proof (execute_submission env bc bs bv kc ks kv rc rs rv s) as H.
    cbv zeta in H.
    unfold lengthOf, recordsOf at 1. rewrite H.
    case_bool_decide as Hd; simpl.
    + subst d. rewrite lookup_total_insert_eq, length_app. simpl. lia.
    + rewrite lookup_total_insert_ne by done. unfold recordsOf. lia.
  - destruct (execute_callback env requestId cleartexts proof s)
      as [H|(l & st & Hl & H)];
      unfold lengthOf, recordsOf at 1; rewrite H; simpl.
    + unfold recordsOf. lia.
    + destruct (decide (msg_sender env = d)) as [<-|Hd].
      * rewrite lookup_total_insert_eq, Hl, !length_app. simpl. lia.
      * rewrite lookup_total_insert_ne by done. unfold recordsOf. lia.
Qed.

Lemma run_cons tx txs s : run (tx :: txs) s = run txs (execute tx s).
Proof. reflexivity. Qed.

Lemma run_length txs s d :
  lengthOf (run txs s) d
  = lengthOf s d + N.of_nat (length (filter (isSubmissionBy d) txs)).
Proof.
  revert s. induction txs as [|tx txs IH]; intros s.
  - simpl. lia.
  - rewrite run_cons, IH, execute_length, filter_cons.
    destruct (isSubmissionBy d tx); simpl; lia.
Qed.

(** C7.  A submission always succeeds.  The index it announces in
    [BootAttempt] is the sender's stage count before the call; the new record
    sits at that index, behind the unchanged earlier records; the count
    afterwards is one greater; no other device's history moves.  Counting
    from deployment, after any sequence of calls a device's stage count is
    the number of submissions it made, so its indices are 0, 1, 2, ...
    without gap or repetition. *)
Theorem verifyBootStage_assigns_next_index :
  (∀ s sender ts bc bs bv kc ks kv rc rs rv,
     ∃ s' st decision,
       verifyBootStage sender ts bc bs bv kc ks kv rc rs rv s
       = Return tt s' [BootAttempt sender (lengthOf s sender); decision]
       ∧ recordsOf s' sender = recordsOf s sender ++ [st]
       ∧ recordsOf s' sender !! N.to_nat (lengthOf s sender) = Some st
       ∧ lengthOf s' sender = lengthOf s sender + 1
       ∧ ∀ d, d ≠ sender → recordsOf s' d = recordsOf s d)
  ∧ (∀ deployer threshold txs d,
       lengthOf (run txs (constructor deployer threshold)) d
       = N.of_nat (length (filter (isSubmissionBy d) txs))).
Proof.
  split.
  - intros. eexists _, _, _. rewrite verifyBootStage_eq.
    split; [reflexivity|].
    assert (Hr : ∀ x, recordsOf
      (with_deviceBootRecords
         (<[sender := recordsOf s sender ++ [x]]> (deviceBootRecords s)) s)
      sender = recordsOf s sender ++ [x]).
    { intros x. apply recordsOf_with_insert. }
    rewrite Hr. split; [reflexivity|]. split.
    { unfold lengthOf. rewrite Nat2N.id. apply list_lookup_middle. done. }
    split.
    { eapply lengthOf_snoc. apply Hr. }
    intros d Hd. by apply recordsOf_with_insert_ne.
  - intros. rewrite run_length.
    unfold lengthOf, recordsOf, constructor; simpl.
    rewrite lookup_total_empty. simpl. lia.
Qed.

(** C2 is not what the contract does.  A submission does not leave the
    decision to the callback: whichever way the [if] on the encrypted
    comparison resolves, the call ends with one of the two decision events in
    its log, right after [BootAttempt], and the three flags of the new record
    are set on return exactly when that event is [VerificationPassed]. *)
Theorem verifyBootStage_decides_in_call s sender ts bc bs bv kc ks kv rc rs rv :
  let stageId := lengthOf s sender in
  ∃ s' st (decided : bool),
    verifyBootStage sender ts bc bs bv kc ks kv rc rs rv s
    = Return tt s'
        [BootAttempt sender stageId;
         if decided then VerificationPassed sender stageId
         else VerificationFailed sender stageId]
    ∧ recordsOf s' sender = recordsOf s sender ++ [st]
    ∧ flags st = (decided, decided, decided).
Proof.
  intros stageId. eexists _, _, _. rewrite verifyBootStage_eq.
  split; [reflexivity|]. split; [apply recordsOf_with_insert|].
  reflexivity.
Qed.

(** C1, as the contract has it.  A device without a registered profile is
    not turned away: its submission succeeds, one record is appended, and
    the score stored in it is the score against the default profile, whose
    checksum and size read as zero. *)
Theorem verifyBootStage_without_reference
    s sender ts bc bs bv kc ks kv rc rs rv :
  trustedChecksums s !! sender = None →
  trustedSizes s !! sender = None →
  trustedVersions s !! sender = None →
  ∃ s' st log,
    verifyBootStage sender ts bc bs bv kc ks kv rc rs rv s = Return tt s' log
    ∧ recordsOf s' sender = recordsOf s sender ++ [st]
    ∧ lengthOf s' sender = lengthOf s sender + 1
    ∧ overallStatus st
      = FHE.Enc (defaultPoints bc bs bv + defaultPoints kc ks kv
                 + defaultPoints rc rs rv).
Proof.
  intros Hc Hs _. eexists _, _, _. rewrite verifyBootStage_eq.
  split; [reflexivity|].
  split; [apply recordsOf_with_insert|].
  split; [eapply lengthOf_snoc, recordsOf_with_insert|].
  unfold stageRecord, stagePoints, componentPoints, defaultPoints; simpl.
  rewrite !lookup_total_alt, Hc, Hs. reflexivity.
Qed.

End SubmissionProperties.

(** ** Administration *)

Section AdminProperties.

Context {oracle : FHE.DecryptionOracle} {branching : FHE.Branching}.

Implicit Types (s : State) (d device : address).

(** C9.  For a caller other than the administrator, both administrative
    calls revert with the gate's error and the storage stays as it was:
    reference profiles, threshold and boot histories included. *)
Theorem admin_calls_reject_strangers
    s sender device checksum size version newThreshold :
  sender ≠ admin s →
  registerTrustedFirmware sender device checksum size version s
  = Revert (RequireFailed "Admin only")
  ∧ updateVerificationThreshold sender newThreshold s
    = Revert (RequireFailed "Admin only")
  ∧ commit (registerTrustedFirmware sender device checksum size version) s = s
  ∧ commit (updateVerificationThreshold sender newThreshold) s = s.
Proof.
  intros Hne. unfold commit.
  rewrite registerTrustedFirmware_eq, updateVerificationThreshold_eq.
  rewrite bool_decide_eq_false_2 by done. done.
Qed.

End AdminProperties.

(** ** The decryption callback *)

Section CallbackProperties.

Context {oracle : FHE.DecryptionOracle} {branching : FHE.Branching}.

Implicit Types (s : State) (d device : address).

(** C10.  A callback whose sender has no recorded stage reverts, whatever
    it carries, and the storage stays as it was.  When the signature check
    and the decoding let the call reach [length - 1], the revert is the
    arithmetic panic of that subtraction. *)
Theorem decryptBootStatus_empty_history_reverts
    s sender requestId cleartexts proof :
  recordsOf s sender = [] →
  reverted (decryptBootStatus sender requestId cleartexts proof s) = true
  ∧ commit (decryptBootStatus sender requestId cleartexts proof) s = s
  ∧ (is_Some (FHE.checkSignatures requestId cleartexts proof (fheStorage s)) →
     is_Some (Solidity.abi_decode_uint32 cleartexts) →
     decryptBootStatus sender requestId cleartexts proof s
     = Revert (Panic PANIC_ARITHMETIC)).
Proof.
  intros Hl. unfold commit.
  rewrite (decryptBootStatus_empty _ _ _ _ _ Hl).
  destruct (FHE.checkSignatures _ _ _ _) as [fst|].
  - destruct (Solidity.abi_decode_uint32 _) as [status|].
    + done.
    + repeat split; done.
  - repeat split; done.
Qed.

(** C4, as the contract has it.  An accepted callback decides on the last
    record of its own sender: when the decoded score is strictly above the
    threshold's low 32 bits, the three flags of that record are set; otherwise
    the sender's history is left as it was.  No other device's history is
    touched either way. *)
Theorem decryptBootStatus_finalizes_latest
    s sender requestId cleartexts proof l st fst status :
  recordsOf s sender = l ++ [st] →
  FHE.checkSignatures requestId cleartexts proof (fheStorage s) = Some fst →
  Solidity.abi_decode_uint32 cleartexts = Some status →
  let s' := commit (decryptBootStatus sender requestId cleartexts proof) s in
  reverted (decryptBootStatus sender requestId cleartexts proof s) = false
  ∧ (∀ d, d ≠ sender → recordsOf s' d = recordsOf s d)
  ∧ flags (markAll st) = (true, true, true)
  ∧ recordsOf s' sender
    = if Solidity.uint32 (verificationThreshold s) <? status
      then l ++ [markAll st]
      else l ++ [st].
Proof.
  intros Hl Hc Hd s'. subst s'. unfold commit.
  rewrite (decryptBootStatus_snoc _ _ _ _ _ _ _ Hl), Hc, Hd.
  fold (passes s status).
  destruct (passes s status); simpl.
  - repeat split; try done.
    + intros d Hne. unfold recordsOf; simpl.
      by rewrite lookup_total_insert_ne.
    + unfold recordsOf; simpl. by rewrite lookup_total_insert_eq.
  - repeat split; done.
Qed.



End CallbackProperties.

(** ** The boot history over time *)

Section HistoryProperties.

Context {oracle : FHE.DecryptionOracle} {branching : FHE.Branching}.

Implicit Types (s : State) (d device : address) (l : list BootStage).

Lemma keepsFlags_refl st : keepsFlags st st.
Proof. by intros sl. Qed.

Lemma keepsFlags_markAll st : keepsFlags st (markAll st).
Proof. intros sl _. by destruct sl. Qed.

Lemma extends_refl l : extends l l.
Proof. intros i st Hi. exists st. split; [done | apply keepsFlags_refl]. Qed.

Lemma extends_trans l1 l2 l3 : extends l1 l2 → extends l2 l3 → extends l1 l3.
Proof.
  intros H12 H23 i st Hi.
  destruct (H12 i st Hi) as (st2 & Hi2 & Hk2).
  destruct (H23 i st2 Hi2) as (st3 & Hi3 & Hk3).
  exists st3. split; [done|]. intros sl Hv. by apply Hk3, Hk2.
Qed.

Lemma extends_snoc l st : extends l (l ++ [st]).
Proof.
  intros i x Hi. exists x. split; [|apply keepsFlags_refl].
  by apply lookup_app_l_Some.
Qed.

Lemma extends_markAll l st : extends (l ++ [st]) (l ++ [markAll st]).
Proof.
  intros i x Hi.
  destruct (decide (i < length l)%nat) as [Hlt|Hge].
  - rewrite lookup_app_l in Hi by done. exists x.
    split; [by apply lookup_app_l_Some | apply keepsFlags_refl].
  - rewrite lookup_app_r in Hi by lia.
    destruct (i - length l)%nat as [|k] eqn:Hk; [|done].
    injection Hi as <-. exists (markAll st).
    split; [|apply keepsFlags_markAll].
    rewrite lookup_app_r by lia. by rewrite Hk.
Qed.

(** One call: every history keeps its records, in place, with their flags. *)
Lemma execute_extends tx s d :
  extends (recordsOf s d) (recordsOf (execute tx s) d).
Proof.
  destruct tx as [env m].
  destruct m as [dev cs sz v | bc bs bv kc ks kv rc rs rv | stageId
                 | requestId cleartexts proof | n | dev | dev stageId];
    try (match goal with
         | |- context [execute (_, ?m) _] =>
             pose proof (execute_records env m s) as H
         end;
         cbv beta iota in H; unfold recordsOf; rewrite H; apply extends_refl).
  - pose proof (execute_submission env bc bs bv kc ks kv rc rs rv s) as H.
    cbv zeta in H. unfold recordsOf at 2. rewrite H.
    destruct (decide (msg_sender env = d)) as [<-|Hd].
    + rewrite lookup_total_insert_eq. apply extends_snoc.
    + rewrite lookup_total_insert_ne by done. apply extends_refl.
  - destruct (execute_callback env requestId cleartexts proof s)
      as [H|(l & st & Hl & H)]; unfold recordsOf at 2; rewrite H.
    + apply extends_refl.
    + destruct (decide (msg_sender env = d)) as [<-|Hd].
      * rewrite lookup_total_insert_eq, Hl. apply extends_markAll.
      * rewrite lookup_total_insert_ne by done. apply extends_refl.
Qed.

Lemma run_extends txs s d :
  extends (recordsOf s d) (recordsOf (run txs s) d).
Proof.
  revert s. induction txs as [|tx txs IH]; intros s.
  - apply extends_refl.
  - rewrite run_cons. eapply extends_trans; [apply execute_extends | apply IH].
Qed.

(** C8.  Flags only ever go up.  Take any record of any device and any of
    its three components whose flag is set; after any sequence of calls
    whatsoever -- registrations, submissions, decryption requests, callbacks,
    threshold updates, reads, accepted or reverted -- the record is still at
    its index and that flag is still set. *)
Theorem verified_flags_are_monotonic txs s d i st sl :
  recordsOf s d !! i = Some st →
  isVerified (component sl st) = true →
  ∃ st', recordsOf (run txs s) d !! i = Some st'
         ∧ isVerified (component sl st') = true.
Proof.
  intros Hi Hv.
  destruct (run_extends txs s d i st Hi) as (st' & Hi' & Hk).
  exists st'. split; [done | by apply Hk].
Qed.

End HistoryProperties.

(** ** Scoring *)

(** C6.  The score of a component is the encrypted sum of three
    contributions of one or zero: checksum equal to the reference, size equal
    to the reference, version above zero.  The score of a stage is the
    encrypted sum of its three component scores and lies between 0 and 9.
    With the reference (42, 1024, 3) registered and evidence that matches it
    except for a bootloader checksum of 41, the stage scores 8.  Delivered by
    the decryption callback, that score fails against a threshold of 8 -- it
    is not strictly greater, and the callback writes nothing -- and passes
    against a threshold of 7: the callback sets the three flags.  This holds
    however the [if] of the submission resolves. *)
Theorem score_is_sum_of_checks :
  (∀ (oracle : FHE.DecryptionOracle) (s : State) device c,
     ∃ score,
       verifyComponent device c s = Return score s []
       ∧ FHE.plain score
         = N.b2n (FHE.plain (encryptedChecksum c)
                  =? FHE.plain (trustedChecksums s !!! device))
           + N.b2n (FHE.plain (encryptedSize c)
                    =? FHE.plain (trustedSizes s !!! device))
           + N.b2n (0 <? FHE.plain (encryptedVersion c)))
  ∧ (∀ (oracle : FHE.DecryptionOracle) (branching : FHE.Branching)
       (s : State) sender ts bc bs bv kc ks kv rc rs rv,
       ∃ s' log st b k r,
         verifyBootStage sender ts bc bs bv kc ks kv rc rs rv s
         = Return tt s' log
         ∧ recordsOf s' sender = recordsOf s sender ++ [st]
         ∧ verifyComponent sender (submitted bc bs bv false) s = Return b s []
         ∧ verifyComponent sender (submitted kc ks kv false) s = Return k s []
         ∧ verifyComponent sender (submitted rc rs rv false) s = Return r s []
         ∧ FHE.plain (overallStatus st)
           = FHE.plain b + FHE.plain k + FHE.plain r
         ∧ FHE.plain (overallStatus st) <= 9)
  ∧ (∀ (branching : FHE.Branching),
     let pending :=
       run [Scenario.from Scenario.ADMIN Scenario.registerReference;
            Scenario.from Scenario.DEVICE (Scenario.evidence 41);
            Scenario.from Scenario.DEVICE (Msg_requestBootStatusDecryption 0)]
         (Scenario.deployed 8) in
     let deliver :=
       decryptBootStatus Scenario.DEVICE 0 (Solidity.abi_encode_uint 8)
         [Byte.x01] in
     let lowered :=
       run [Scenario.from Scenario.ADMIN (Msg_updateVerificationThreshold 7)]
         pending in
     overallStatus <$> recordsOf pending Scenario.DEVICE !! 0%nat
     = Some (FHE.Enc 8)
     ∧ verificationThreshold pending = 8
     ∧ reverted (deliver pending) = false
     ∧ deviceBootRecords (commit deliver pending) = deviceBootRecords pending
     ∧ verificationThreshold lowered = 7
     ∧ reverted (deliver lowered) = false
     ∧ Scenario.flagsAt (commit deliver lowered) Scenario.DEVICE 0
       = Some (true, true, true)).
Proof.
  split; [|split].
  - intros. eexists. rewrite verifyComponent_eq. split; reflexivity.
  - intros. eexists _, _, _, _, _, _.
    rewrite verifyBootStage_eq, !verifyComponent_eq.
    split; [reflexivity|]. split; [apply recordsOf_with_insert|].
    do 3 (split; [reflexivity|]).
    split; [reflexivity|]. apply stagePoints_le.
  - intros branching.
    assert (Hsubmit : ∀ s : @State Gateway.oracle,
      execute (Scenario.from Scenario.DEVICE (Scenario.evidence 41)) s
      = with_deviceBootRecords
          (<[Scenario.DEVICE :=
               recordsOf s Scenario.DEVICE
               ++ [stageRecord s Scenario.DEVICE Scenario.NOW
                     (FHE.Enc 41) (FHE.Enc 1024) (FHE.Enc 3)
                     (FHE.Enc 42) (FHE.Enc 1024) (FHE.Enc 3)
                     (FHE.Enc 42) (FHE.Enc 1024) (FHE.Enc 3)]]>
             (deviceBootRecords s)) s).
    { intros s. unfold execute, commit; simpl. by rewrite verifyBootStage_eq. }
    cbv zeta. rewrite !run_cons, !Hsubmit. unfold stageRecord.
    match goal with
    | |- context [FHE.taken ?c] => generalize (FHE.taken c)
    end.
    intros decided. destruct decided; vm_compute; repeat split; reflexivity.
Qed.

(** ** Concrete runs of the contract *)

Section Runs.

Import Scenario.

(** C1 fails on the contract.  [STRANGER] has no reference profile, yet its
    submission is accepted, its stage count goes from 0 to 1, and -- scored
    against the default profile -- the stage even passes. *)
Lemma unregistered_device_is_scored :
  let s := deployed 5 in
  let call :=
    verifyBootStage STRANGER NOW
      (FHE.Enc 0) (FHE.Enc 0) (FHE.Enc 1)
      (FHE.Enc 0) (FHE.Enc 0) (FHE.Enc 1)
      (FHE.Enc 0) (FHE.Enc 0) (FHE.Enc 1) in
  trustedChecksums s !! STRANGER = None
  ∧ trustedSizes s !! STRANGER = None
  ∧ trustedVersions s !! STRANGER = None
  ∧ lengthOf s STRANGER = 0
  ∧ reverted (call s) = false
  ∧ lengthOf (commit call s) STRANGER = 1
  ∧ flagsAt (commit call s) STRANGER 0 = Some (true, true, true).
Proof. vm_compute. repeat split; reflexivity. Qed.

(** The amended C1 at a concrete input: a stranger's submission right
    after deployment. *)
Lemma verifyBootStage_without_reference_witness :
  trustedChecksums (deployed 5) !! STRANGER = None
  ∧ trustedSizes (deployed 5) !! STRANGER = None
  ∧ trustedVersions (deployed 5) !! STRANGER = None
  ∧ ∃ s' st log,
      verifyBootStage STRANGER NOW
        (FHE.Enc 7) (FHE.Enc 0) (FHE.Enc 1)
        (FHE.Enc 7) (FHE.Enc 7) (FHE.Enc 1)
        (FHE.Enc 0) (FHE.Enc 0) (FHE.Enc 0) (deployed 5)
      = Return tt s' log
      ∧ recordsOf s' STRANGER = recordsOf (deployed 5) STRANGER ++ [st]
      ∧ lengthOf s' STRANGER = lengthOf (deployed 5) STRANGER + 1
      ∧ overallStatus st
        = FHE.Enc (defaultPoints (FHE.Enc 7) (FHE.Enc 0) (FHE.Enc 1)
                   + defaultPoints (FHE.Enc 7) (FHE.Enc 7) (FHE.Enc 1)
                   + defaultPoints (FHE.Enc 0) (FHE.Enc 0) (FHE.Enc 0)).
Proof.
  assert (Hc : trustedChecksums (deployed 5) !! STRANGER = None)
    by (vm_compute; reflexivity).
  assert (Hs : trustedSizes (deployed 5) !! STRANGER = None)
    by (vm_compute; reflexivity).
  assert (Hv : trustedVersions (deployed 5) !! STRANGER = None)
    by (vm_compute; reflexivity).
  split; [exact Hc|]. split; [exact Hs|]. split; [exact Hv|].
  exact (verifyBootStage_without_reference (deployed 5) STRANGER NOW
           _ _ _ _ _ _ _ _ _ Hc Hs Hv).
Defined.



(** C4 fails on the contract.  Stage 0 scores 9 against a threshold of 9
    and stays unverified; its decryption is requested (request 0).  The
    device appends stage 1, which scores 3, and the threshold is lowered to
    5.  The authenticated answer to request 0, a score of 9, is above the
    threshold: the contract leaves stage 0 unverified and sets the flags of
    stage 1. *)
Lemma callback_finalizes_another_stage :
  let s :=
    run [from ADMIN registerReference;
         from DEVICE (evidence 42);
         from DEVICE (Msg_requestBootStatusDecryption 0);
         from DEVICE strayEvidence;
         from ADMIN (Msg_updateVerificationThreshold 5)] (deployed 9) in
  let deliver := dispatch (sentBy DEVICE) (delivery 0 9) in
  overallStatus <$> recordsOf s DEVICE !! 0%nat = Some (FHE.Enc 9)
  ∧ overallStatus <$> recordsOf s DEVICE !! 1%nat = Some (FHE.Enc 3)
  ∧ flagsAt s DEVICE 0 = Some (false, false, false)
  ∧ flagsAt s DEVICE 1 = Some (false, false, false)
  ∧ reverted (deliver s) = false
  ∧ flagsAt (commit deliver s) DEVICE 0 = Some (false, false, false)
  ∧ flagsAt (commit deliver s) DEVICE 1 = Some (true, true, true).
Proof. vm_compute. repeat split; reflexivity. Qed.

(** The amended C4 at a concrete input.  Decryption was requested for
    stage 0; the device's latest stage is stage 1.  The answer, a score of 9
    above the threshold of 5, is accepted: stage 0 keeps its clear flags and
    stage 1 has its three flags set. *)
Lemma decryptBootStatus_finalizes_latest_witness :
  recordsOf twoStageState DEVICE = [requestedStage] ++ [latestStage]
  ∧ FHE.checkSignatures 0 (Solidity.abi_encode_uint 9) [Byte.x01]
      (fheStorage twoStageState)
    = Some (fheStorage twoStageState)
  ∧ Solidity.abi_decode_uint32 (Solidity.abi_encode_uint 9) = Some 9
  ∧ reverted
      (decryptBootStatus DEVICE 0 (Solidity.abi_encode_uint 9) [Byte.x01]
         twoStageState)
    = false
  ∧ flags requestedStage = (false, false, false)
  ∧ flags latestStage = (false, false, false)
  ∧ flags (markAll latestStage) = (true, true, true)
  ∧ recordsOf
      (commit
         (decryptBootStatus DEVICE 0 (Solidity.abi_encode_uint 9) [Byte.x01])
         twoStageState) DEVICE
    = [requestedStage] ++ [markAll latestStage].
Proof.
  assert (Hl : recordsOf twoStageState DEVICE
               = [requestedStage] ++ [latestStage])
    by (vm_compute; reflexivity).
  assert (Hc : FHE.checkSignatures 0 (Solidity.abi_encode_uint 9) [Byte.x01]
                 (fheStorage twoStageState)
               = Some (fheStorage twoStageState))
    by (vm_compute; reflexivity).
  assert (Hd : Solidity.abi_decode_uint32 (Solidity.abi_encode_uint 9) = Some 9)
    by (vm_compute; reflexivity).
  assert (Hpass : (Solidity.uint32 (verificationThreshold twoStageState) <? 9)
                  = true)
    by (vm_compute; reflexivity).
  split; [exact Hl|]. split; [exact Hc|]. split; [exact Hd|].
  pose proof (decryptBootStatus_finalizes_latest twoStageState DEVICE 0
                _ _ _ _ _ _ Hl Hc Hd) as (Hrev & _ & Hflags & Hrec).
  rewrite Hpass in Hrec.
  split; [exact Hrev|]. split; [reflexivity|]. split; [reflexivity|].
  split; [exact Hflags | exact Hrec].
Defined.



(** C8 at a concrete input: a verified stage, followed by five calls of
    different kinds. *)
Lemma verified_flags_are_monotonic_witness :
  recordsOf verifiedState DEVICE !! 0%nat = Some verifiedStage
  ∧ isVerified (component Kernel verifiedStage) = true
  ∧ ∃ st',
      recordsOf
        (run [from ADMIN (Msg_updateVerificationThreshold 100);
              from DEVICE strayEvidence;
              from DEVICE (Msg_requestBootStatusDecryption 1);
              from DEVICE (delivery 0 3);
              from ADMIN registerReference] verifiedState) DEVICE !! 0%nat
      = Some st'
      ∧ isVerified (component Kernel st') = true.
Proof.
  assert (Hi : recordsOf verifiedState DEVICE !! 0%nat = Some verifiedStage)
    by (vm_compute; reflexivity).
  assert (Hv : isVerified (component Kernel verifiedStage) = true)
    by reflexivity.
  split; [exact Hi|]. split; [exact Hv|].
  exact (verified_flags_are_monotonic _ verifiedState DEVICE 0%nat
           verifiedStage Kernel Hi Hv).
Defined.

(** C9 at a concrete input: a stranger calling right after deployment. *)
Lemma admin_calls_reject_strangers_witness :
  STRANGER ≠ admin (deployed 5)
  ∧ registerTrustedFirmware STRANGER STRANGER
      (FHE.Enc 0) (FHE.Enc 0) (FHE.Enc 0) (deployed 5)
    = Revert (RequireFailed "Admin only")
  ∧ updateVerificationThreshold STRANGER 0 (deployed 5)
    = Revert (RequireFailed "Admin only")
  ∧ commit (registerTrustedFirmware STRANGER STRANGER
              (FHE.Enc 0) (FHE.Enc 0) (FHE.Enc 0)) (deployed 5)
    = deployed 5
  ∧ commit (updateVerificationThreshold STRANGER 0) (deployed 5) = deployed 5.
Proof.
  assert (Hne : STRANGER ≠ admin (deployed 5)) by (vm_compute; discriminate).
  split; [exact Hne|].
  exact (admin_calls_reject_strangers (deployed 5) STRANGER STRANGER
           (FHE.Enc 0) (FHE.Enc 0) (FHE.Enc 0) 0 Hne).
Defined.

(** C10 at a concrete input: a well-signed answer delivered by a sender
    without history. *)
Lemma decryptBootStatus_empty_history_reverts_witness :
  recordsOf pendingState STRANGER = []
  ∧ reverted
      (decryptBootStatus STRANGER 0 (Solidity.abi_encode_uint 8) [Byte.x01]
         pendingState)
    = true
  ∧ commit
      (decryptBootStatus STRANGER 0 (Solidity.abi_encode_uint 8) [Byte.x01])
      pendingState
    = pendingState
  ∧ decryptBootStatus STRANGER 0 (Solidity.abi_encode_uint 8) [Byte.x01]
      pendingState
    = Revert (Panic PANIC_ARITHMETIC).
Proof.
  assert (Hl : recordsOf pendingState STRANGER = [])
    by (vm_compute; reflexivity).
  split; [exact Hl|].
  pose proof (decryptBootStatus_empty_history_reverts pendingState STRANGER 0
                (Solidity.abi_encode_uint 8) [Byte.x01] Hl) as (H1 & H2 & H3).
  split; [exact H1|]. split; [exact H2|].
  apply H3; vm_compute; eexists; reflexivity.
Defined.

End Runs.

(** ** Configuration over the life of the contract *)

Section ConfigurationProperties.

Context {oracle : FHE.DecryptionOracle} {branching : FHE.Branching}.

Implicit Types (s : State) (d device : address).

(** What one transaction does to the administrator, the threshold and the
    reference profiles. *)
Lemma execute_config tx s :
  admin (execute tx s) = admin s
  ∧ verificationThreshold (execute tx s)
    = thresholdAfter (admin s) (verificationThreshold s) tx
  ∧ ∀ d, profileOf (execute tx s) d
         = profileAfter (admin s) d (profileOf s d) tx.
Proof.
  destruct tx as [env m].
  destruct m as [dev cs sz v | bc bs bv kc ks kv rc rs rv | stageId
                 | requestId cleartexts proof | n | dev | dev stageId];
    unfold execute, commit, dispatch, thresholdAfter, profileAfter; simpl.
  - rewrite registerTrustedFirmware_eq.
    destruct (bool_decide (msg_sender env = admin s)); simpl;
      [|by repeat split].
    repeat split. intros d. unfold profileOf; simpl.
    case_bool_decide as Hd.
    + subst d. by rewrite !lookup_total_insert_eq.
    + by rewrite !lookup_total_insert_ne.
  - rewrite verifyBootStage_eq. by repeat split.
  - rewrite requestBootStatusDecryption_eq.
    destruct (_ <? _); [|by repeat split].
    destruct (_ !! _); [|by repeat split].
    destruct (FHE.requestDecryption _ _ _) as [[??]|]; by repeat split.
  - destruct (history_cases (recordsOf s (msg_sender env)))
      as [Hl|(l & st & Hl)].
    + rewrite (decryptBootStatus_empty _ _ _ _ _ Hl).
      destruct (FHE.checkSignatures _ _ _ _); [|by repeat split].
      destruct (Solidity.abi_decode_uint32 _); by repeat split.
    + rewrite (decryptBootStatus_snoc _ _ _ _ _ _ _ Hl).
      destruct (FHE.checkSignatures _ _ _ _); [|by repeat split].
      destruct (Solidity.abi_decode_uint32 _) as [status|];
        [|by repeat split].
      destruct (passes s status); by repeat split.
  - rewrite updateVerificationThreshold_eq.
    destruct (bool_decide (msg_sender env = admin s)); by repeat split.
  - by repeat split.
  - pose proof (getBootStageStatus_commit s dev stageId) as H.
    unfold commit in H. rewrite bind_eq.
    destruct (getBootStageStatus dev stageId s); [by repeat split|].
    simpl. rewrite H. by repeat split.
Qed.

Lemma run_config txs s :
  admin (run txs s) = admin s
  ∧ verificationThreshold (run txs s)
    = fold_left (thresholdAfter (admin s)) txs (verificationThreshold s)
  ∧ ∀ d, profileOf (run txs s) d
         = fold_left (profileAfter (admin s) d) txs (profileOf s d).
Proof.
  revert s. induction txs as [|tx txs IH]; intros s.
  - by repeat split.
  - rewrite run_cons. destruct (IH (execute tx s)) as (Ha & Ht & Hp).
    destruct (execute_config tx s) as (Ha1 & Ht1 & Hp1).
    rewrite Ha1 in Ha, Ht, Hp. rewrite Ht1 in Ht.
    split; [done|]. split; [done|].
    intros d. simpl. by rewrite Hp, Hp1.
Qed.

(** X1.  The administrator is fixed at deployment: whatever calls are made,
    by whomever, the contract's administrator stays the deployer. *)
Theorem admin_is_the_deployer deployer threshold txs :
  admin (run txs (constructor deployer threshold)) = deployer.
Proof. by destruct (run_config txs (constructor deployer threshold)). Qed.

(** X2.  The threshold in storage is the value of the last update the
    administrator sent, or the constructor's value when there was none:
    no other call, and no update sent by anyone else, moves it. *)
Theorem threshold_is_last_admin_update deployer threshold txs :
  verificationThreshold (run txs (constructor deployer threshold))
  = fold_left (thresholdAfter deployer) txs threshold.
Proof.
  by destruct (run_config txs (constructor deployer threshold)) as (_ & H & _).
Qed.

(** X3.  The reference profile of a device is the triple of the last
    registration the administrator sent for it -- all three slots together --
    or three null handles when there was none: no other call, no registration
    for another device and no registration sent by anyone else moves it. *)
Theorem profile_is_last_admin_registration deployer threshold txs device :
  profileOf (run txs (constructor deployer threshold)) device
  = fold_left (profileAfter deployer device) txs
      (FHE.Uninitialized, FHE.Uninitialized, FHE.Uninitialized).
Proof.
  destruct (run_config txs (constructor deployer threshold)) as (_ & _ & H).
  rewrite H. f_equal.
Qed.

End ConfigurationProperties.

(** ** The shape of the boot histories *)

Section LedgerProperties.

Context {oracle : FHE.DecryptionOracle} {branching : FHE.Branching}.

Implicit Types (s : State) (d device : address) (l : list BootStage).

(** The three ways one transaction can move a device's history: not at
    all, by one submitted record at the end, or by the flags of its last
    record. *)
Lemma execute_history tx s d :
  recordsOf (execute tx s) d = recordsOf s d
  ∨ (∃ ts bc bs bv kc ks kv rc rs rv,
       recordsOf (execute tx s) d
       = recordsOf s d ++ [stageRecord s d ts bc bs bv kc ks kv rc rs rv])
  ∨ (∃ l st, recordsOf s d = l ++ [st]
             ∧ recordsOf (execute tx s) d = l ++ [markAll st]).
Proof.
  destruct tx as [env m].
  destruct m as [dev cs sz v | bc bs bv kc ks kv rc rs rv | stageId
                 | requestId cleartexts proof | n | dev | dev stageId];
    try (left;
         match goal with
         | |- context [execute (_, ?m) _] =>
             pose proof (execute_records env m s) as H
         end;
         cbv beta iota in H; unfold recordsOf; by rewrite H).
  - pose proof (execute_submission env bc bs bv kc ks kv rc rs rv s) as H.
    cbv zeta in H.
    change (recordsOf (execute ?t s) d)
      with (deviceBootRecords (execute t s) !!! d).
    rewrite H.
    destruct (decide (msg_sender env = d)) as [<-|Hd].
    + rewrite lookup_total_insert_eq. right; left.
      by exists (block_timestamp env), bc, bs, bv, kc, ks, kv, rc, rs, rv.
    + rewrite lookup_total_insert_ne by done. by left.
  - destruct (execute_callback env requestId cleartexts proof s)
      as [H|(l & st & Hl & H)];
      change (recordsOf (execute ?t s) d)
        with (deviceBootRecords (execute t s) !!! d);
      rewrite H.
    + by left.
    + destruct (decide (msg_sender env = d)) as [<-|Hd].
      * rewrite lookup_total_insert_eq. right; right. by exists l, st.
      * rewrite lookup_total_insert_ne by done. by left.
Qed.

Lemma clearFlags_markAll st : clearFlags (markAll st) = clearFlags st.
Proof. reflexivity. Qed.

Lemma execute_append_only tx s d :
  (clearFlags <$> recordsOf s d)
    `prefix_of` (clearFlags <$> recordsOf (execute tx s) d).
Proof.
  destruct (execute_history tx s d)
    as [->|[(ts&bc&bs&bv&kc&ks&kv&rc&rs&rv&->)|(l & st & Hl & ->)]].
  - done.
  - rewrite fmap_app. by apply prefix_app_r.
  - rewrite Hl, !fmap_app. simpl. by rewrite clearFlags_markAll.
Qed.

(** X4.  The boot histories are append-only.  Over any sequence of calls,
    what a device's history held before is still there afterwards, record by
    record in the same order from index 0: the same nine handles, the same
    encrypted score, the same timestamp.  Calls only add records at the end
    and set flags. *)
Theorem history_is_append_only txs s d :
  (clearFlags <$> recordsOf s d)
    `prefix_of` (clearFlags <$> recordsOf (run txs s) d).
Proof.
  revert s. induction txs as [|tx txs IH]; intros s.
  - done.
  - rewrite run_cons. etrans; [apply execute_append_only | apply IH].
Qed.

(** A property of single records that submissions establish and flag
    writes keep holds of every record of every history, for good. *)
Lemma run_stage_invariant (P : BootStage → Prop) :
  (∀ s d ts bc bs bv kc ks kv rc rs rv,
     P (stageRecord s d ts bc bs bv kc ks kv rc rs rv)) →
  (∀ st, P st → P (markAll st)) →
  ∀ txs s d, Forall P (recordsOf s d) → Forall P (recordsOf (run txs s) d).
Proof.
  intros Hnew Hmark txs. induction txs as [|tx txs IH]; intros s d Hs.
  - done.
  - rewrite run_cons. apply IH.
    destruct (execute_history tx s d)
      as [->|[(ts&bc&bs&bv&kc&ks&kv&rc&rs&rv&->)|(l & st & Hl & ->)]].
    + done.
    + apply Forall_app. split; [done|]. apply Forall_singleton, Hnew.
    + rewrite Hl in Hs. apply Forall_app in Hs as [Hl' Hst].
      apply Forall_app. split; [done|].
      apply Forall_singleton, Hmark. by inversion Hst.
Qed.

Lemma constructor_no_records deployer threshold d :
  recordsOf (constructor deployer threshold) d = [].
Proof. unfold recordsOf, constructor; simpl. by rewrite lookup_total_empty. Qed.

(** X5.  Flags are written all three or not at all.  In every state the
    contract can reach from deployment, the bootloader, kernel and rootfs
    flags of every record of every device agree. *)
Theorem flags_are_all_or_nothing deployer threshold txs d :
  Forall uniformFlags
    (recordsOf (run txs (constructor deployer threshold)) d).
Proof.
  apply (run_stage_invariant uniformFlags).
  - intros. by split.
  - intros st _. by split.
  - by rewrite constructor_no_records.
Qed.

(** X6.  In every state the contract can reach from deployment, the score
    stored in every record is a proper handle -- never the null handle -- and
    its plaintext is at most 9. *)
Theorem stored_scores_are_bounded deployer threshold txs d :
  Forall boundedScore
    (recordsOf (run txs (constructor deployer threshold)) d).
Proof.
  apply (run_stage_invariant boundedScore).
  - intros. eexists. split; [reflexivity | apply stagePoints_le].
  - intros st (p & Hp & Hle). exists p. by split.
  - by rewrite constructor_no_records.
Qed.

End LedgerProperties.

(** ** Reading the ledger and requesting decryption *)

Section AccessorProperties.

Context {oracle : FHE.DecryptionOracle} {branching : FHE.Branching}.

Implicit Types (s : State) (d device : address).

(** The stage-id guard and the record lookup agree. *)
Lemma guard_lookup s device stageId :
  (stageId <? lengthOf s device) = true
    ∧ is_Some (recordsOf s device !! N.to_nat stageId)
  ∨ (stageId <? lengthOf s device) = false
    ∧ recordsOf s device !! N.to_nat stageId = None.
Proof.
  unfold lengthOf. destruct (stageId <? _) eqn:Hlt.
  - left. split; [done|]. apply lookup_lt_is_Some.
    apply N.ltb_lt in Hlt. lia.
  - right. split; [done|]. apply lookup_ge_None.
    apply N.ltb_ge in Hlt. lia.
Qed.

Lemma getBootStageStatus_eq s device stageId :
  getBootStageStatus device stageId s
  = match recordsOf s device !! N.to_nat stageId with
    | Some st =>
        Return (isVerified (bootloader st), isVerified (kernel st),
                isVerified (rootfs st), timestamp st) s []
    | None => Revert (RequireFailed "Invalid stage ID")
    end.
Proof.
  unfold getBootStageStatus.
  rewrite bind_eq. unfold sload at 1.
  rewrite bind_eq. unfold require.
  destruct (guard_lookup s device stageId) as [[-> [st Hst]]|[-> Hst]];
    rewrite Hst; [|done].
  simpl. rewrite bind_eq. unfold index. by rewrite Hst.
Qed.

(** X7.  [getBootStageStatus] is guarded by the stage count: an index at or
    past the count is refused with "Invalid stage ID", an index below it
    returns the three flags and the timestamp of the record at that index.
    Either way nothing is written and nothing is logged, and the array is
    never indexed out of range. *)
Theorem getBootStageStatus_bounds s device stageId :
  (lengthOf s device <= stageId →
   getBootStageStatus device stageId s
   = Revert (RequireFailed "Invalid stage ID"))
  ∧ (stageId < lengthOf s device →
     ∃ st, recordsOf s device !! N.to_nat stageId = Some st
           ∧ getBootStageStatus device stageId s
             = Return (isVerified (bootloader st), isVerified (kernel st),
                       isVerified (rootfs st), timestamp st) s []).
Proof.
  rewrite getBootStageStatus_eq.
  destruct (guard_lookup s device stageId) as [[Hlt [st Hst]]|[Hlt Hst]];
    rewrite Hst.
  - apply N.ltb_lt in Hlt. split; [lia|]. intros _. by exists st.
  - apply N.ltb_ge in Hlt. split; [done|]. lia.
Qed.

(** X8.  What a submission writes can be read back.  After a submission the
    sender's stage count is one more than before; the status of the new index
    is the decision the call logged -- all three flags set after
    [VerificationPassed], all three clear after [VerificationFailed] -- with
    the block's timestamp; and every status that could be read before the
    submission, of any device, reads the same after it. *)
Theorem status_after_submission s sender ts bc bs bv kc ks kv rc rs rv :
  let call := verifyBootStage sender ts bc bs bv kc ks kv rc rs rv in
  let s' := commit call s in
  let stageId := lengthOf s sender in
  ∃ decided : bool,
    logged call s
    = [BootAttempt sender stageId;
       if decided then VerificationPassed sender stageId
       else VerificationFailed sender stageId]
    ∧ getBootStageCount sender s' = Return (stageId + 1) s' []
    ∧ getBootStageStatus sender stageId s'
      = Return (decided, decided, decided, ts) s' []
    ∧ ∀ device index r,
        getBootStageStatus device index s = Return r s [] →
        getBootStageStatus device index s' = Return r s' [].
Proof.
  intros call s' stageId.
  assert (Hs' : ∀ d, recordsOf s' d
    = if decide (sender = d)
      then recordsOf s d
           ++ [stageRecord s sender ts bc bs bv kc ks kv rc rs rv]
      else recordsOf s d).
  { intros d. subst s' call. unfold commit. rewrite verifyBootStage_eq.
    destruct (decide (sender = d)) as [<-|Hd].
    - apply recordsOf_with_insert.
    - by apply recordsOf_with_insert_ne. }
  eexists. split; [|split; [|split]].
  - subst call. unfold logged. rewrite verifyBootStage_eq. reflexivity.
  - unfold getBootStageCount, sload. f_equal.
    unfold stageId, lengthOf. rewrite Hs', decide_True by done.
    rewrite length_app. simpl. lia.
  - rewrite getBootStageStatus_eq, Hs', decide_True by done.
    unfold stageId, lengthOf. rewrite Nat2N.id, list_lookup_middle by done.
    reflexivity.
  - intros device index r. rewrite !getBootStageStatus_eq, Hs'.
    destruct (recordsOf s device !! N.to_nat index) as [st|] eqn:Hst;
      [|done].
    intros [= <-].
    destruct (decide (sender = device)); [|by rewrite Hst].
    by rewrite (lookup_app_l_Some _ _ _ _ Hst).
Qed.

(** X9.  [requestBootStatusDecryption] is guarded by the sender's stage
    count: an index at or past the count is refused with "Invalid stage ID"
    before the library is called.  For an index below the count, the one
    ciphertext handed to the library is the encrypted score of the sender's
    record at that index, and the call succeeds exactly when the library
    accepts the request. *)
Theorem requestBootStatusDecryption_bounds s sender stageId :
  (lengthOf s sender <= stageId →
   requestBootStatusDecryption sender stageId s
   = Revert (RequireFailed "Invalid stage ID"))
  ∧ (stageId < lengthOf s sender →
     ∃ st, recordsOf s sender !! N.to_nat stageId = Some st
           ∧ requestBootStatusDecryption sender stageId s
             = match FHE.requestDecryption [overallStatus st]
                       Solidity.Selector_decryptBootStatus (fheStorage s) with
               | Some (_, fst) => Return tt (with_fheStorage fst s) []
               | None => Revert LibraryRevert
               end).
Proof.
  rewrite requestBootStatusDecryption_eq.
  destruct (guard_lookup s sender stageId) as [[Hlt [st Hst]]|[Hlt Hst]];
    rewrite Hlt, Hst.
  - apply N.ltb_lt in Hlt. split; [lia|]. intros _. by exists st.
  - apply N.ltb_ge in Hlt. split; [done|]. lia.
Qed.

End AccessorProperties.

(** ** Scores and thresholds *)

Section ScoringProperties.

Context {oracle : FHE.DecryptionOracle} {branching : FHE.Branching}.

Implicit Types (s : State) (d device : address).

Lemma updated_state s newThreshold :
  commit (updateVerificationThreshold (admin s) newThreshold) s
  = {| deviceBootRecords := deviceBootRecords s;
       trustedChecksums := trustedChecksums s;
       trustedSizes := trustedSizes s;
       trustedVersions := trustedVersions s;
       verificationThreshold := newThreshold;
       admin := admin s;
       fheStorage := fheStorage s |}.
Proof.
  unfold commit.
  by rewrite updateVerificationThreshold_eq, bool_decide_eq_true_2.
Qed.

Lemma registered_state s device checksum size version :
  commit (registerTrustedFirmware (admin s) device checksum size version) s
  = {| deviceBootRecords := deviceBootRecords s;
       trustedChecksums := <[device := checksum]> (trustedChecksums s);
       trustedSizes := <[device := size]> (trustedSizes s);
       trustedVersions := <[device := version]> (trustedVersions s);
       verificationThreshold := verificationThreshold s;
       admin := admin s;
       fheStorage := fheStorage s |}.
Proof.
  unfold commit.
  by rewrite registerTrustedFirmware_eq, bool_decide_eq_true_2.
Qed.

Lemma uint32_add_multiple t k :
  Solidity.uint32 (t + k * 2 ^ 32) = Solidity.uint32 t.
Proof. unfold Solidity.uint32. by rewrite N.Div0.mod_add. Qed.

(** The whole outcome of a callback, whatever the sender's history. *)
Lemma decryptBootStatus_cases s sender requestId cleartexts proof :
  decryptBootStatus sender requestId cleartexts proof s
  = match FHE.checkSignatures requestId cleartexts proof (fheStorage s) with
    | None => Revert LibraryRevert
    | Some fst =>
        match Solidity.abi_decode_uint32 cleartexts with
        | None => Revert AbiDecodeFailed
        | Some status =>
            match reverse (recordsOf s sender) with
            | [] => Revert (Panic PANIC_ARITHMETIC)
            | st :: front =>
                if passes s status then
                  Return tt
                    (with_deviceBootRecords
                       (<[sender := reverse front ++ [markAll st]]>
                          (deviceBootRecords s))
                       (with_fheStorage fst s)) []
                else Return tt (with_fheStorage fst s) []
            end
        end
    end.
Proof.
  destruct (history_cases (recordsOf s sender)) as [Hl|(l & st & Hl)].
  - rewrite (decryptBootStatus_empty _ _ _ _ _ Hl), Hl. done.
  - rewrite (decryptBootStatus_snoc _ _ _ _ _ _ _ Hl), Hl.
    rewrite reverse_snoc, reverse_involutive. done.
Qed.

(** X10.  The contract compares scores with the low 32 bits of the
    threshold.  Setting the threshold to [t] or to [t] plus any multiple of
    2^32 leads to the same decisions: every submission logs the same events
    and leaves the same histories, and every callback is accepted or refused
    alike and leaves the same histories. *)
Theorem threshold_counts_modulo_2_32 s t k :
  let s1 := commit (updateVerificationThreshold (admin s) t) s in
  let s2 :=
    commit (updateVerificationThreshold (admin s) (t + k * 2 ^ 32)) s in
  (∀ sender ts bc bs bv kc ks kv rc rs rv,
     logged (verifyBootStage sender ts bc bs bv kc ks kv rc rs rv) s1
     = logged (verifyBootStage sender ts bc bs bv kc ks kv rc rs rv) s2
     ∧ deviceBootRecords
         (commit (verifyBootStage sender ts bc bs bv kc ks kv rc rs rv) s1)
       = deviceBootRecords
           (commit (verifyBootStage sender ts bc bs bv kc ks kv rc rs rv) s2))
  ∧ (∀ sender requestId cleartexts proof,
       reverted (decryptBootStatus sender requestId cleartexts proof s1)
       = reverted (decryptBootStatus sender requestId cleartexts proof s2)
       ∧ deviceBootRecords
           (commit (decryptBootStatus sender requestId cleartexts proof) s1)
         = deviceBootRecords
             (commit (decryptBootStatus sender requestId cleartexts proof) s2)).
Proof.
  intros s1 s2. subst s1 s2. rewrite !updated_state.
  set (s1 := {| verificationThreshold := t |}).
  set (s2 := {| verificationThreshold := t + k * 2 ^ 32 |}).
  assert (Hp : ∀ x, passes s2 x = passes s1 x).
  { intros x. unfold passes; simpl. by rewrite uint32_add_multiple. }
  split.
  - intros. unfold logged, commit. rewrite !verifyBootStage_eq.
    unfold stageRecord. rewrite !Hp. done.
  - intros. unfold commit. rewrite !decryptBootStatus_cases.
    change (fheStorage s2) with (fheStorage s1).
    change (recordsOf s2 sender) with (recordsOf s1 sender).
    destruct (FHE.checkSignatures _ _ _ _) as [fst|]; [|done].
    destruct (Solidity.abi_decode_uint32 _) as [status|]; [|done].
    destruct (reverse (recordsOf s1 sender)) as [|st front]; [done|].
    rewrite Hp. by destruct (passes s1 status).
Qed.

Lemma abi_decode_uint32_bound data v :
  Solidity.abi_decode_uint32 data = Some v → v < 2 ^ 32.
Proof.
  unfold Solidity.abi_decode_uint32.
  destruct (length data <? 32)%nat; [done|].
  destruct (_ <? 2 ^ 32) eqn:Hlt; [|done].
  intros [= <-]. by apply N.ltb_lt.
Qed.

(** X11.  Two callbacks that can never pass.  A decoded score of 0 is not
    strictly above any threshold, and no decoded score -- a [uint32] -- is
    strictly above a threshold whose low 32 bits are all ones: in both cases
    the callback, accepted or not, leaves every boot history as it was. *)
Theorem callbacks_that_never_pass s sender requestId cleartexts proof :
  Solidity.abi_decode_uint32 cleartexts = Some 0
  ∨ Solidity.uint32 (verificationThreshold s) = 2 ^ 32 - 1 →
  deviceBootRecords
    (commit (decryptBootStatus sender requestId cleartexts proof) s)
  = deviceBootRecords s.
Proof.
  intros Hcase. unfold commit. rewrite decryptBootStatus_cases.
  destruct (FHE.checkSignatures _ _ _ _) as [fst|]; [|done].
  destruct (Solidity.abi_decode_uint32 cleartexts) as [status|] eqn:Hd;
    [|done].
  destruct (reverse (recordsOf s sender)) as [|st front]; [done|].
  assert (Hp : passes s status = false).
  { unfold passes. apply N.ltb_ge.
    destruct Hcase as [[= ->]|Hmax]; [lia|].
    apply abi_decode_uint32_bound in Hd. lia. }
  by rewrite Hp.
Qed.

(** X12.  The registered version is stored but never compared.  Two
    registrations that differ only in the version lead to the same score for
    every component, and to the same events and histories for every
    submission. *)
Theorem registered_version_is_never_compared s device checksum size v1 v2 :
  let s1 :=
    commit (registerTrustedFirmware (admin s) device checksum size v1) s in
  let s2 :=
    commit (registerTrustedFirmware (admin s) device checksum size v2) s in
  (∀ d c, ∃ score,
     verifyComponent d c s1 = Return score s1 []
     ∧ verifyComponent d c s2 = Return score s2 [])
  ∧ (∀ sender ts bc bs bv kc ks kv rc rs rv,
       logged (verifyBootStage sender ts bc bs bv kc ks kv rc rs rv) s1
       = logged (verifyBootStage sender ts bc bs bv kc ks kv rc rs rv) s2
       ∧ deviceBootRecords
           (commit (verifyBootStage sender ts bc bs bv kc ks kv rc rs rv) s1)
         = deviceBootRecords
             (commit (verifyBootStage sender ts bc bs bv kc ks kv rc rs rv)
                s2)).
Proof.
  intros s1 s2. subst s1 s2. rewrite !registered_state.
  split.
  - intros d c. eexists. rewrite !verifyComponent_eq. split; reflexivity.
  - intros. unfold logged, commit. rewrite !verifyBootStage_eq. done.
Qed.

Lemma componentPoints_full s device checksum size version :
  componentPoints s device (submitted checksum size version false) = 3
  ↔ fullMatch s device checksum size version.
Proof.
  unfold componentPoints, fullMatch; simpl.
  destruct (FHE.plain checksum =? _) eqn:Hc;
    destruct (FHE.plain size =? _) eqn:Hs;
    destruct (0 <? FHE.plain version) eqn:Hv; simpl;
    rewrite ?N.eqb_eq, ?N.eqb_neq, ?N.ltb_lt, ?N.ltb_ge in *;
    split; try lia; try (intros (? & ? & ?); (congruence || lia)).
Qed.

(** X13.  A stage is stored with the full score of 9 exactly when each of
    its three components has the reference's checksum, the reference's size
    and a version above zero; any other evidence is stored with a lower
    score. *)
Theorem full_score_iff_full_match s sender ts bc bs bv kc ks kv rc rs rv :
  ∃ s' st log,
    verifyBootStage sender ts bc bs bv kc ks kv rc rs rv s = Return tt s' log
    ∧ recordsOf s' sender = recordsOf s sender ++ [st]
    ∧ (overallStatus st = FHE.Enc 9
       ↔ fullMatch s sender bc bs bv ∧ fullMatch s sender kc ks kv
         ∧ fullMatch s sender rc rs rv).
Proof.
  eexists _, _, _. rewrite verifyBootStage_eq.
  split; [reflexivity|]. split; [apply recordsOf_with_insert|].
  unfold stageRecord, stagePoints; simpl.
  rewrite <- !componentPoints_full.
  pose proof (componentPoints_le s sender (submitted bc bs bv false)).
  pose proof (componentPoints_le s sender (submitted kc ks kv false)).
  pose proof (componentPoints_le s sender (submitted rc rs rv false)).
  split.
  - intros [= Hsum]. lia.
  - intros (-> & -> & ->). done.
Qed.

End ScoringProperties.

(** ** More on the decryption callback *)

Section CallbackEdges.

Context {oracle : FHE.DecryptionOracle} {branching : FHE.Branching}.

Implicit Types (s : State) (d device : address).

(** X14.  A callback whose cleartext is not one well-formed [uint32] word
    is refused and writes nothing: fewer than 32 bytes, or a first word of
    2^32 or more, make the call revert whoever sends it and whatever the
    library's check says.  When the library's check accepts the callback, the
    revert is that of the decoding: no later step is reached. *)
Theorem decryptBootStatus_rejects_malformed_cleartext
    s sender requestId cleartexts proof :
  (length cleartexts < 32)%nat
  ∨ 2 ^ 32 <= Solidity.be_value (take 32 cleartexts) →
  reverted (decryptBootStatus sender requestId cleartexts proof s) = true
  ∧ commit (decryptBootStatus sender requestId cleartexts proof) s = s
  ∧ (is_Some (FHE.checkSignatures requestId cleartexts proof (fheStorage s)) →
     decryptBootStatus sender requestId cleartexts proof s
     = Revert AbiDecodeFailed).
Proof.
  intros Hbad.
  assert (Hd : Solidity.abi_decode_uint32 cleartexts = None).
  { unfold Solidity.abi_decode_uint32.
    destruct (length cleartexts <? 32)%nat eqn:Hlen; [done|].
    destruct Hbad as [Hshort|Hbig].
    - apply Nat.ltb_ge in Hlen. lia.
    - by apply N.ltb_ge in Hbig as ->. }
  unfold commit. rewrite decryptBootStatus_cases, Hd.
  destruct (FHE.checkSignatures _ _ _ _); [done|].
  repeat split; done.
Qed.

(** X15.  Applying an accepted callback a second time, with no call in
    between, changes no history: the records after the second delivery are
    the records after the first. *)
Theorem accepted_callback_is_idempotent
    s sender requestId cleartexts proof s1 s2 log1 log2 :
  decryptBootStatus sender requestId cleartexts proof s = Return tt s1 log1 →
  decryptBootStatus sender requestId cleartexts proof s1 = Return tt s2 log2 →
  deviceBootRecords s2 = deviceBootRecords s1.
Proof.
  intros H1 H2.
  destruct (history_cases (recordsOf s sender)) as [Hl|(l & st & Hl)].
  { rewrite (decryptBootStatus_empty _ _ _ _ _ Hl) in H1.
    destruct (FHE.checkSignatures _ _ _ _); [|done].
    by destruct (Solidity.abi_decode_uint32 _). }
  rewrite (decryptBootStatus_snoc _ _ _ _ _ _ _ Hl) in H1.
  destruct (FHE.checkSignatures _ _ _ (fheStorage s)) as [fst|]; [|done].
  destruct (Solidity.abi_decode_uint32 cleartexts) as [status|] eqn:Hd;
    [|done].
  destruct (passes s status) eqn:Hp; injection H1 as <- _.
  - assert (Hl1 : recordsOf
      (with_deviceBootRecords
         (<[sender := l ++ [markAll st]]> (deviceBootRecords s))
         (with_fheStorage fst s)) sender = l ++ [markAll st]).
    { unfold recordsOf; simpl. by rewrite lookup_total_insert_eq. }
    rewrite (decryptBootStatus_snoc _ _ _ _ _ _ _ Hl1), Hd in H2.
    destruct (FHE.checkSignatures _ _ _ _) as [fst2|]; [|done].
    change (passes _ status) with (passes s status) in H2.
    rewrite Hp in H2. injection H2 as <- _. simpl.
    by rewrite insert_insert_eq.
  - assert (Hl1 : recordsOf (with_fheStorage fst s) sender = l ++ [st])
      by exact Hl.
    rewrite (decryptBootStatus_snoc _ _ _ _ _ _ _ Hl1), Hd in H2.
    destruct (FHE.checkSignatures _ _ _ _) as [fst2|]; [|done].
    change (passes _ status) with (passes s status) in H2.
    rewrite Hp in H2. by injection H2 as <- _.
Qed.

End CallbackEdges.

(** ** The added properties on concrete runs *)

Section MoreRuns.

Import Scenario.

(** X7 at concrete inputs: a device with two stages is asked for stage 5
    and for stage 1. *)
Lemma getBootStageStatus_bounds_witness :
  let s := run [from DEVICE strayEvidence] verifiedState in
  getBootStageStatus DEVICE 5 s = Revert (RequireFailed "Invalid stage ID")
  ∧ ∃ st, recordsOf s DEVICE !! 1%nat = Some st
          ∧ getBootStageStatus DEVICE 1 s
            = Return (isVerified (bootloader st), isVerified (kernel st),
                      isVerified (rootfs st), timestamp st) s [].
Proof.
  intros s. split.
  - apply (proj1 (getBootStageStatus_bounds s DEVICE 5)).
    apply N.leb_le. vm_compute. reflexivity.
  - apply (proj2 (getBootStageStatus_bounds s DEVICE 1)).
    apply N.ltb_lt. vm_compute. reflexivity.
Defined.

(** X9 at concrete inputs: the device with one stage asks for stage 3 and
    for stage 0. *)
Lemma requestBootStatusDecryption_bounds_witness :
  requestBootStatusDecryption DEVICE 3 verifiedState
  = Revert (RequireFailed "Invalid stage ID")
  ∧ ∃ st, recordsOf verifiedState DEVICE !! 0%nat = Some st
          ∧ requestBootStatusDecryption DEVICE 0 verifiedState
            = match FHE.requestDecryption [overallStatus st]
                      Solidity.Selector_decryptBootStatus
                      (fheStorage verifiedState) with
              | Some (_, fst) => Return tt (with_fheStorage fst verifiedState) []
              | None => Revert LibraryRevert
              end.
Proof.
  split.
  - apply (proj1 (requestBootStatusDecryption_bounds verifiedState DEVICE 3)).
    apply N.leb_le. vm_compute. reflexivity.
  - apply (proj2 (requestBootStatusDecryption_bounds verifiedState DEVICE 0)).
    apply N.ltb_lt. vm_compute. reflexivity.
Defined.

(** X11 at a concrete input: the threshold is raised to 2^32 - 1 and the
    answer to the pending request is delivered; it is accepted and writes no
    flag. *)
Lemma callbacks_that_never_pass_witness :
  let s :=
    run [from ADMIN (Msg_updateVerificationThreshold 4294967295)]
      pendingState in
  (Solidity.abi_decode_uint32 (Solidity.abi_encode_uint 8) = Some 0
   ∨ Solidity.uint32 (verificationThreshold s) = 2 ^ 32 - 1)
  ∧ reverted
      (decryptBootStatus DEVICE 0 (Solidity.abi_encode_uint 8) [Byte.x01] s)
    = false
  ∧ deviceBootRecords
      (commit
         (decryptBootStatus DEVICE 0 (Solidity.abi_encode_uint 8) [Byte.x01])
         s)
    = deviceBootRecords s.
Proof.
  intros s.
  assert (Hcase :
    Solidity.abi_decode_uint32 (Solidity.abi_encode_uint 8) = Some 0
    ∨ Solidity.uint32 (verificationThreshold s) = 2 ^ 32 - 1)
    by (right; vm_compute; reflexivity).
  split; [exact Hcase|].
  split; [vm_compute; reflexivity|].
  exact (callbacks_that_never_pass s DEVICE 0 _ _ Hcase).
Defined.

(** X14 at concrete inputs, with the oracle that accepts every callback
    and a sender that has a stage: a word of 2^32 and a cleartext of 31 bytes
    are refused by the decoding and nothing is written, where the word 9 is
    accepted. *)
Lemma decryptBootStatus_rejects_malformed_cleartext_witness :
  let big := Solidity.abi_encode_uint (2 ^ 32) in
  let short := replicate 31 Byte.x00 in
  let callback cleartexts :=
    @decryptBootStatus Permissive.oracle 2 0 cleartexts [] in
  ((length big < 32)%nat ∨ 2 ^ 32 <= Solidity.be_value (take 32 big))
  ∧ ((length short < 32)%nat ∨ 2 ^ 32 <= Solidity.be_value (take 32 short))
  ∧ callback big Permissive.oneStage = Revert AbiDecodeFailed
  ∧ callback short Permissive.oneStage = Revert AbiDecodeFailed
  ∧ commit (callback big) Permissive.oneStage = Permissive.oneStage
  ∧ commit (callback short) Permissive.oneStage = Permissive.oneStage
  ∧ reverted (callback (Solidity.abi_encode_uint 9) Permissive.oneStage)
    = false.
Proof.
  intros big short callback.
  assert (Hbig : (length big < 32)%nat
                 ∨ 2 ^ 32 <= Solidity.be_value (take 32 big))
    by (right; apply N.leb_le; vm_compute; reflexivity).
  assert (Hshort : (length short < 32)%nat
                   ∨ 2 ^ 32 <= Solidity.be_value (take 32 short))
    by (left; apply Nat.ltb_lt; vm_compute; reflexivity).
  pose proof (@decryptBootStatus_rejects_malformed_cleartext
                Permissive.oracle Permissive.oneStage 2 0 big [] Hbig)
    as (_ & Hbig2 & Hbig3).
  pose proof (@decryptBootStatus_rejects_malformed_cleartext
                Permissive.oracle Permissive.oneStage 2 0 short [] Hshort)
    as (_ & Hshort2 & Hshort3).
  split; [exact Hbig|]. split; [exact Hshort|].
  split; [apply Hbig3; by eexists|].
  split; [apply Hshort3; by eexists|].
  split; [exact Hbig2|]. split; [exact Hshort2|].
  vm_compute. reflexivity.
Defined.

(** X15 at a concrete input: the answer to the pending request, delivered
    twice after the threshold was lowered to 7. *)
Lemma accepted_callback_is_idempotent_witness :
  let s :=
    run [from ADMIN (Msg_updateVerificationThreshold 7)] pendingState in
  let deliver :=
    decryptBootStatus DEVICE 0 (Solidity.abi_encode_uint 8) [Byte.x01] in
  deliver s = Return tt (commit deliver s) []
  ∧ deliver (commit deliver s) = Return tt (commit deliver (commit deliver s)) []
  ∧ deviceBootRecords (commit deliver (commit deliver s))
    = deviceBootRecords (commit deliver s).
Proof.
  intros s deliver.
  assert (H1 : deliver s = Return tt (commit deliver s) [])
    by (vm_compute; reflexivity).
  assert (H2 : deliver (commit deliver s)
               = Return tt (commit deliver (commit deliver s)) [])
    by (vm_compute; reflexivity).
  split; [exact H1|]. split; [exact H2|].
  exact (accepted_callback_is_idempotent s DEVICE 0 _ _ _ _ _ _ H1 H2).
Defined.

End MoreRuns.

(** ** The dashboard *)

Section DashboardProperties.

Import Dashboard.

Context {A : Type}.

Implicit Types (l : list A).

(** Page [i + 1] is the [i]-th chunk of five. *)
Lemma currentRecords_chunk l (i : nat) :
  currentRecords l (Z.of_nat i + 1) = take 5 (drop (5 * i) l).
Proof.
  unfold currentRecords, slice, indexOfFirstItem, indexOfLastItem,
    itemsPerPage.
  replace ((Z.of_nat i + 1) * 5 - 5 <? 0)%Z with false
    by (symmetry; apply Z.ltb_ge; lia).
  replace ((Z.of_nat i + 1) * 5 <? 0)%Z with false
    by (symmetry; apply Z.ltb_ge; lia).
  destruct (decide (length l ≤ 5 * i)%nat) as [Hge|Hlt].
  - rewrite (drop_ge l (5 * i)) by done.
    replace (Z.to_nat (Z.min ((Z.of_nat i + 1) * 5 - 5) (Z.of_nat (length l))))
      with (length l) by lia.
    rewrite drop_all. by rewrite !take_nil.
  - replace (Z.to_nat (Z.min ((Z.of_nat i + 1) * 5 - 5) (Z.of_nat (length l))))
      with (5 * i)%nat by lia.
    destruct (decide (5 * i + 5 ≤ length l)%nat) as [Hfull|Hlast].
    + f_equal. lia.
    + rewrite (take_ge _ 5) by (rewrite length_drop; lia).
      apply take_ge. rewrite length_drop. lia.
Qed.

Lemma chunks_join l (n : nat) :
  mjoin ((fun i : nat => take 5 (drop (5 * i) l)) <$> seq 0 n)
  = take (5 * n) l.
Proof.
  induction n as [|n IH].
  - by rewrite take_0.
  - rewrite seq_S, fmap_app, join_app, IH. simpl.
    rewrite app_nil_r, take_take_drop. f_equal. lia.
Qed.

Lemma totalPages_bounds l :
  (0 <= totalPages l
   ∧ Z.of_nat (length l) <= 5 * totalPages l < Z.of_nat (length l) + 5)%Z.
Proof.
  unfold totalPages, itemsPerPage.
  pose proof (Z.div_mod (Z.of_nat (length l) + 5 - 1) 5 ltac:(lia)).
  pose proof (Z.mod_pos_bound (Z.of_nat (length l) + 5 - 1) 5 ltac:(lia)).
  lia.
Qed.

(** X16.  The pages of the dashboard cut the record list without loss.
    When there is more than one page, the pages behind the page buttons,
    read in order, are the whole list, every record once and in its place.
    When there is at most one page, no page button is rendered, and the page
    the dashboard opens on is the whole list. *)
Theorem pages_cover_the_list l :
  if (1 <? totalPages l)%Z
  then mjoin (currentRecords l <$> pageButtons l) = l
  else pageButtons l = [] ∧ currentRecords l initialPage = l.
Proof.
  pose proof (totalPages_bounds l) as Hb.
  unfold pageButtons. destruct (1 <? totalPages l)%Z eqn:Hmany.
  - rewrite <- list_fmap_compose.
    rewrite (list_fmap_ext _ (fun i : nat => take 5 (drop (5 * i) l)))
      by (intros; apply currentRecords_chunk).
    rewrite chunks_join. apply take_ge. lia.
  - split; [done|]. apply Z.ltb_ge in Hmany.
    change initialPage with (Z.of_nat 0 + 1)%Z.
    rewrite currentRecords_chunk. simpl. apply take_ge. lia.
Qed.

(** X17.  Page sizes.  For a page number of 1 or more: a page holds at most
    five records; every page before the last holds exactly five; the last
    page holds at least one; and a page past the last -- where the dashboard
    can be left when the list shrinks -- is empty. *)
Theorem page_sizes l (page : Z) :
  (1 <= page)%Z →
  (length (currentRecords l page) ≤ 5)%nat
  ∧ ((page < totalPages l)%Z → length (currentRecords l page) = 5%nat)
  ∧ (page = totalPages l → (1 ≤ length (currentRecords l page))%nat)
  ∧ ((totalPages l < page)%Z → currentRecords l page = []).
Proof.
  intros Hpage.
  assert (∃ i : nat, page = (Z.of_nat i + 1)%Z) as [i ->]
    by (exists (Z.to_nat (page - 1)); lia).
  rewrite !currentRecords_chunk.
  pose proof (totalPages_bounds l) as Hb.
  rewrite !length_take, !length_drop.
  repeat split; try lia.
  intros Hpast. rewrite drop_ge by lia. apply take_nil.
Qed.

(** X18.  The three counters of the dashboard never count a record twice:
    their sum is at most the number of records, and it is the number of
    records exactly when every record's status is one of "verified",
    "pending" and "failed". *)
Theorem status_counts_partition (records : list BootRecord) :
  (verifiedCount records + pendingCount records + failedCount records
   ≤ length records)%nat
  ∧ ((verifiedCount records + pendingCount records + failedCount records
      = length records)%nat
     ↔ Forall (fun r => status r = "verified" ∨ status r = "pending"
                        ∨ status r = "failed") records).
Proof.
  unfold verifiedCount, pendingCount, failedCount, countWithStatus.
  induction records as [|r records [IHle IHeq]].
  - split; [done|]. split; [by constructor | done].
  - rewrite !filter_cons.
    assert (Hcases :
      status r = "verified" ∨ status r = "pending" ∨ status r = "failed"
      ∨ (status r ≠ "verified" ∧ status r ≠ "pending"
         ∧ status r ≠ "failed")).
    { destruct (decide (status r = "verified")); [by left|].
      destruct (decide (status r = "pending")); [by right; left|].
      destruct (decide (status r = "failed")); [by right; right; left|].
      by right; right; right. }
    destruct Hcases as [Hs|[Hs|[Hs|(H1 & H2 & H3)]]].
    1-3: rewrite Hs; repeat case_decide; try done; simpl;
         (split; [lia|]); rewrite Forall_cons, <- IHeq;
         split; [intros; split; [tauto | lia] | intros [_ ?]; lia].
    repeat case_decide; try done; simpl.
    split; [lia|]. rewrite Forall_cons. split; [lia | tauto].
Qed.

End DashboardProperties.

(** X17 at concrete inputs: seven records, shown on two pages. *)
Lemma page_sizes_witness :
  (1 <= 2)%Z
  ∧ (length (Dashboard.currentRecords (seq 0 7) 2) ≤ 5)%nat
  ∧ (1 ≤ length (Dashboard.currentRecords (seq 0 7) 2))%nat
  ∧ (length (Dashboard.currentRecords (seq 0 7) 1) = 5)%nat
  ∧ Dashboard.currentRecords (seq 0 7) 3 = [].
Proof.
  assert (H1 : (1 <= 1)%Z) by lia.
  assert (H2 : (1 <= 2)%Z) by lia.
  assert (H3 : (1 <= 3)%Z) by lia.
  split; [exact H2|].
  split; [exact (proj1 (page_sizes (seq 0 7) 2 H2))|].
  split; [apply (proj1 (proj2 (proj2 (page_sizes (seq 0 7) 2 H2))));
          vm_compute; reflexivity|].
  split; [apply (proj1 (proj2 (page_sizes (seq 0 7) 1 H1)));
          vm_compute; reflexivity|].
  apply (proj2 (proj2 (proj2 (page_sizes (seq 0 7) 3 H3)))).
  vm_compute; reflexivity.
Defined.
